(** * The RTR reconciliation pipeline ([code/rtr.py])

    A shallow embedding of class [RTR]: the activity payloads are parsed JSON
    values, Python exceptions are results, and the mutable attributes of the
    object together with its visible effects (requests issued, printed lines,
    files written, spreadsheet rows) are threaded as an explicit state. *)

From Stdlib Require Import String Ascii List ZArith Bool Arith Lia DecimalString.
Import ListNotations.
Open Scope string_scope.
Open Scope list_scope.

Infix "+:+" := String.append (at level 60, right associativity).

Set Warnings "-register-all".

(** ** Python values *)

(** What [response.json()] yields.  A parsed object keeps its fields in
    order; a dict has one binding per key and lookup takes the first one.
    Numbers are integers: the code never computes with a number. *)
Inductive json : Type :=
| JNull
| JBool (b : bool)
| JNum (n : Z)
| JStr (s : string)
| JArr (items : list json)
| JObj (fields : list (string * json)).

(** The exceptions the code can meet.  [KeyError] carries the key. *)
Inductive exn : Type :=
| KeyError (key : json)
| IndexError
| TypeError
| AttributeError
| ValueError
| JSONDecodeError
| OSError.

Inductive result (A : Type) : Type :=
| Ok (a : A)
| Raise (e : exn).
Arguments Ok {A} a.
Arguments Raise {A} e.

Definition rbind {A B} (r : result A) (k : A -> result B) : result B :=
  match r with
  | Ok a => k a
  | Raise e => Raise e
  end.

Notation "x <~ r ;; k" := (rbind r (fun x => k))
  (at level 61, r at next level, right associativity).

(** ** Strings *)

Definition nl : string := String (ascii_of_nat 10) "".
Definition tab : string := String (ascii_of_nat 9) "".

(** [str(n)] for an integer. *)
Definition str_of_Z (n : Z) : string := NilZero.string_of_int (Z.to_int n).

(** [s.split(sep)] for a non-empty separator: the pieces between the
    occurrences of [sep], found left to right without overlap.  [skip]
    counts the characters of a separator still to pass over; [cur] is the
    piece being read. *)
Fixpoint split_from (sep : string) (skip : nat) (cur : string) (s : string)
  : list string :=
  match s with
  | EmptyString => [cur]
  | String c rest =>
      match skip with
      | S k => split_from sep k cur rest
      | O =>
          if String.prefix sep s
          then cur :: split_from sep (String.length sep - 1) "" rest
          else split_from sep 0 (cur +:+ String c "") rest
      end
  end.

Definition split (sep s : string) : list string := split_from sep 0 "" s.

(** [l[-1]] *)
Fixpoint last_item {A} (l : list A) : result A :=
  match l with
  | [] => Raise IndexError
  | [x] => Ok x
  | _ :: l' => last_item l'
  end.

(** [l[i]] for [i >= 0] *)
Definition item_at {A} (i : nat) (l : list A) : result A :=
  match nth_error l i with
  | Some x => Ok x
  | None => Raise IndexError
  end.

(** [s[-k:]] *)
Definition slice_last (k : nat) (s : string) : string :=
  substring (String.length s - k) k s.

(** [s.lstrip(c)] for a single character [c] *)
Fixpoint lstrip (c : ascii) (s : string) : string :=
  match s with
  | EmptyString => EmptyString
  | String c' rest => if Ascii.eqb c' c then lstrip c rest else s
  end.

(** [s.replace(old, new)] for a non-empty [old]: the pieces around the
    occurrences of [old], joined by [new]. *)
Definition replace (old new s : string) : string :=
  String.concat new (split old s).

(** [sub in s] on strings *)
Fixpoint is_substring (sub s : string) : bool :=
  String.prefix sub s ||
  match s with
  | EmptyString => false
  | String _ rest => is_substring sub rest
  end.

(** ** Operations on parsed values *)

Fixpoint assoc {K V} (eqb : K -> K -> bool) (k : K) (d : list (K * V)) : option V :=
  match d with
  | [] => None
  | (k', v) :: d' => if eqb k' k then Some v else assoc eqb k d'
  end.

(** [d[k] = v] on an insertion-ordered dict: an existing key keeps its
    place (and the key object it was inserted with), a new one goes last. *)
Fixpoint assoc_set {K V} (eqb : K -> K -> bool) (k : K) (v : V) (d : list (K * V))
  : list (K * V) :=
  match d with
  | [] => [(k, v)]
  | (k', v') :: d' =>
      if eqb k' k then (k', v) :: d' else (k', v') :: assoc_set eqb k v d'
  end.

Definition field (k : string) (fields : list (string * json)) : option json :=
  assoc String.eqb k fields.

(** [v[k]] for a string key *)
Definition py_getitem (v : json) (k : string) : result json :=
  match v with
  | JObj fields =>
      match field k fields with
      | Some x => Ok x
      | None => Raise (KeyError (JStr k))
      end
  | _ => Raise TypeError
  end.

(** [v[0]] *)
Definition py_getitem0 (v : json) : result json :=
  match v with
  | JArr (x :: _) => Ok x
  | JArr [] => Raise IndexError
  | JObj _ => Raise (KeyError (JNum 0))
  | JStr (String c _) => Ok (JStr (String c ""))
  | JStr EmptyString => Raise IndexError
  | _ => Raise TypeError
  end.

(** [v.get(k, default)] *)
Definition py_get (v : json) (k : string) (default : json) : result json :=
  match v with
  | JObj fields =>
      match field k fields with
      | Some x => Ok x
      | None => Ok default
      end
  | _ => Raise AttributeError
  end.

Definition is_str (s : string) (v : json) : bool :=
  match v with
  | JStr s' => String.eqb s' s
  | _ => false
  end.

(** [k in v] for a string [k] *)
Definition py_in (k : string) (v : json) : result bool :=
  match v with
  | JObj fields => Ok (match field k fields with Some _ => true | None => false end)
  | JArr items => Ok (existsb (is_str k) items)
  | JStr s => Ok (is_substring k s)
  | _ => Raise TypeError
  end.

Fixpoint chars (s : string) : list json :=
  match s with
  | EmptyString => []
  | String c rest => JStr (String c "") :: chars rest
  end.

(** What [for x in v] runs over *)
Definition py_iter (v : json) : result (list json) :=
  match v with
  | JArr items => Ok items
  | JObj fields => Ok (map (fun kv => JStr (fst kv)) fields)
  | JStr s => Ok (chars s)
  | _ => Raise TypeError
  end.

(** [if v:] *)
Definition py_truthy (v : json) : bool :=
  match v with
  | JNull => false
  | JBool b => b
  | JNum n => negb (Z.eqb n 0)
  | JStr s => negb (String.eqb s "")
  | JArr items => match items with [] => false | _ => true end
  | JObj fields => match fields with [] => false | _ => true end
  end.

(** [v.split(sep)] *)
Definition py_split (v : json) (sep : string) : result (list string) :=
  match v with
  | JStr s => Ok (split sep s)
  | _ => Raise AttributeError
  end.

(** [v.replace(old, new)] *)
Definition py_replace (v : json) (old new : string) : result string :=
  match v with
  | JStr s => Ok (replace old new s)
  | _ => Raise AttributeError
  end.

(** Hashing a dict key or a set member: lists and dicts are unhashable. *)
Definition hashable (v : json) : bool :=
  match v with
  | JArr _ | JObj _ => false
  | _ => true
  end.

(** Equality of hashable values as dict keys ([True == 1], [False == 0]). *)
Definition key_eqb (a b : json) : bool :=
  match a, b with
  | JNull, JNull => true
  | JStr x, JStr y => String.eqb x y
  | JBool x, JBool y => Bool.eqb x y
  | JNum x, JNum y => Z.eqb x y
  | JBool x, JNum y | JNum y, JBool x => Z.eqb (if x then 1 else 0) y
  | _, _ => false
  end.

(** ** The object, its surroundings and its state *)

(** A [requests.Response]: [body] is what [json()] parses ([None]: the body
    is no JSON document and [json()] raises). *)
Record response : Type := mkResponse {
  status_code : Z;
  body : option json;
  text : string
}.

(** [response.ok]: the status is no client or server error (the requests
    library tests 400 <= status < 600). *)
Definition response_ok (r : response) : bool :=
  negb ((400 <=? status_code r)%Z && (status_code r <? 600)%Z).

(** [response.json()] *)
Definition response_json (r : response) : result json :=
  match body r with
  | Some j => Ok j
  | None => Raise JSONDecodeError
  end.

(** The positions of an entry of [vendor.urns] that [process_activity]
    reads: [name, _, uri, _, activity_group, rule_reference, _]. *)
Record activity : Type := mkActivity {
  act_name : json;
  act_uri : string;
  act_group : json;
  act_rule_reference : json
}.

(** The attributes [__init__] sets and nothing changes afterwards, and the
    outside world the methods call: the server behind [session.get] (asked
    with the number of requests issued before and the URL), [urllib.parse],
    the text Python prints for a list or a dict, and the file system
    ([writable path]: [open(path, 'w')] succeeds; where it does not, it
    raises an [OSError] such as [FileNotFoundError]). *)
Record RTR : Type := mkRTR {
  base_dir : string;
  args_env : string;
  args_date : string;
  args_sttr : bool;
  args_location : bool;
  urns : list activity;
  geo_variables : list (string * string);
  session_get : nat -> string -> response;
  urlparse_query : json -> result string;
  parse_qs : string -> result (list (string * list string));
  repr_container : json -> string;
  writable : string -> bool
}.

(** The attributes the methods change, and what the run has done so far.
    [files] holds the files the run has written, by path: a file opened
    again for writing loses what it held. *)
Record state : Type := mkState {
  sttr_url_per_activity : list (string * json);
  werkingsgebied_per_activity : list (json * list string);
  requests : nat;
  stdout : list string;
  files : list (string * string);
  sheet : list (nat * list json);
  workbook_closed : bool
}.

Definition initial_state : state := mkState [] [] 0 [] [] [] false.

(** A method: it reads and changes the state and returns or raises; what
    it changed before raising stays changed. *)
Definition M (A : Type) : Type := state -> result A * state.

Definition ret {A} (a : A) : M A := fun st => (Ok a, st).

Definition bind {A B} (m : M A) (k : A -> M B) : M B :=
  fun st =>
    match m st with
    | (Ok a, st') => k a st'
    | (Raise e, st') => (Raise e, st')
    end.

Definition lift {A} (r : result A) : M A := fun st => (r, st).

Notation "x <- m ;; k" := (bind m (fun x => k))
  (at level 61, m at next level, right associativity).

(** [try: body / except KeyError as e: handler] *)
Definition try_except_KeyError {A} (body : M A) (handler : json -> M A) : M A :=
  fun st =>
    match body st with
    | (Raise (KeyError key), st') => handler key st'
    | other => other
    end.

(** [for x in l: body] *)
Fixpoint for_each {A} (l : list A) (body : A -> M unit) : M unit :=
  match l with
  | [] => ret tt
  | x :: l' => _ <- body x ;; for_each l' body
  end.

(** A loop that updates a local variable *)
Fixpoint for_fold {A S} (l : list A) (acc : S) (body : S -> A -> M S) : M S :=
  match l with
  | [] => ret acc
  | x :: l' => acc' <- body acc x ;; for_fold l' acc' body
  end.

(** [print(line)] *)
Definition print (line : string) : M unit :=
  fun st =>
    (Ok tt,
     mkState (sttr_url_per_activity st) (werkingsgebied_per_activity st)
       (requests st) (stdout st ++ [line]) (files st) (sheet st)
       (workbook_closed st)).

(** [self.session.get(url, headers=self.headers)] *)
Definition get (self : RTR) (url : string) : M response :=
  fun st =>
    (Ok (session_get self (requests st) url),
     mkState (sttr_url_per_activity st) (werkingsgebied_per_activity st)
       (S (requests st)) (stdout st) (files st) (sheet st)
       (workbook_closed st)).

(** [self.sttr_url_per_activity[key] = href] *)
Definition set_sttr_url (key : string) (href : json) : M unit :=
  fun st =>
    (Ok tt,
     mkState (assoc_set String.eqb key href (sttr_url_per_activity st))
       (werkingsgebied_per_activity st) (requests st) (stdout st) (files st)
       (sheet st) (workbook_closed st)).

Definition set_werkingsgebied (d : list (json * list string)) : M unit :=
  fun st =>
    (Ok tt,
     mkState (sttr_url_per_activity st) d (requests st) (stdout st) (files st)
       (sheet st) (workbook_closed st)).

(** [self.excel_handler.write_data_to_cells(row, data)] *)
Definition write_data_to_cells (row : nat) (data : list json) : M unit :=
  fun st =>
    (Ok tt,
     mkState (sttr_url_per_activity st) (werkingsgebied_per_activity st)
       (requests st) (stdout st) (files st) (sheet st ++ [(row, data)])
       (workbook_closed st)).

(** [self.excel_handler.close_workbook()] *)
Definition close_workbook : M unit :=
  fun st =>
    (Ok tt,
     mkState (sttr_url_per_activity st) (werkingsgebied_per_activity st)
       (requests st) (stdout st) (files st) (sheet st) true).

(** [with open(path, 'w') as file:] and the writes of [content] inside it:
    the file is replaced by [content], or [open] raises and nothing is
    written. *)
Definition store_file (self : RTR) (path content : string) : M unit :=
  fun st =>
    if writable self path then
      (Ok tt,
       mkState (sttr_url_per_activity st) (werkingsgebied_per_activity st)
         (requests st) (stdout st)
         (assoc_set String.eqb path content (files st)) (sheet st)
         (workbook_closed st))
    else (Raise OSError, st).

(** [str(v)], as an f-string formats a value *)
Definition py_str (self : RTR) (v : json) : string :=
  match v with
  | JStr s => s
  | JNull => "None"
  | JBool true => "True"
  | JBool false => "False"
  | JNum n => str_of_Z n
  | _ => repr_container self v
  end.

(** [str(e)] for a [KeyError]: the key as Python writes it; the keys the
    code looks up are plain names and 0. *)
Definition str_of_key (self : RTR) (key : json) : string :=
  match key with
  | JStr k => "'" +:+ k +:+ "'"
  | _ => py_str self key
  end.

(** [os.path.join(a, b)] *)
Definition path_join (a b : string) : string :=
  if String.prefix "/" b then b
  else if String.eqb a "" || String.eqb (slice_last 1 a) "/" then a +:+ b
  else a +:+ "/" +:+ b.

Definition read {A} (f : state -> A) : M A := fun st => (Ok (f st), st).

Fixpoint map_result {A B} (f : A -> result B) (l : list A) : result (list B) :=
  match l with
  | [] => Ok []
  | x :: l' => y <~ f x ;; ys <~ map_result f l' ;; Ok (y :: ys)
  end.

(** ** The methods of [RTR] *)

Definition compose_base_url (env : string) : string :=
  "https://service" +:+ (if String.eqb env "prod" then "" else ".pre")
  +:+ ".omgevingswet.overheid.nl/publiek/toepasbare-regels/api".

Definition base_url (self : RTR) : string := compose_base_url (args_env self).

Definition compose_activity_url (self : RTR) (uri : string) : string :=
  base_url self +:+ "/rtrgegevens/v2/activiteiten/" +:+ uri
  +:+ "?datum=" +:+ args_date self.

Definition compose_regel_beheer_object_url (self : RTR)
    (functional_structure_reference : json) : string :=
  base_url self
  +:+ "/toepasbareregelsuitvoerengegevens/v1/toepasbareRegels?functioneleStructuurRef="
  +:+ py_str self functional_structure_reference
  +:+ "&datum=" +:+ args_date self.

Definition create_file_path (self : RTR) (directory filename : string) : string :=
  path_join (path_join (base_dir self) directory) filename.

(** The text [write_to_file] writes for one key and its values *)
Definition file_entry (self : RTR) (entry : json * list string) : string :=
  py_str self (fst entry) +:+ nl
  +:+ String.concat "" (map (fun value => tab +:+ value +:+ nl) (snd entry))
  +:+ nl.

Definition write_to_file (self : RTR) (file_path : string)
    (data : list (json * list string)) : M unit :=
  store_file self file_path (String.concat "" (map (file_entry self) data)).

Definition extract_activity_description (json_data : json) : result json :=
  py_get json_data "omschrijving" (JStr "No description").

Definition extract_identifications (json_data : json) : result (list json) :=
  locaties <~ py_get json_data "locaties" (JArr []) ;;
  locs <~ py_iter locaties ;;
  map_result (fun loc => py_getitem loc "identificatie") locs.

Definition get_description (self : RTR) (url : json) : result string :=
  if is_str "nl.imow-ws0636.ambtsgebied.HDSR" url then Ok "ambtsgebied HDSR"
  else
    parts <~ py_split url "." ;;
    segment <~ last_item parts ;;
    let index := slice_last 2 segment in
    let clean_index := lstrip "0" index in
    Ok (match assoc String.eqb clean_index (geo_variables self) with
        | Some description => description
        | None => "null: " +:+ py_str self url
        end).

Definition match_descriptions (self : RTR) (identifications : list json)
  : result (list string) :=
  map_result (get_description self) identifications.

Definition update_activity_mapping (activity_description : json)
    (matched_descriptions : list string) : M unit :=
  if hashable activity_description then
    mapping <- read werkingsgebied_per_activity ;;
    match assoc key_eqb activity_description mapping with
    | Some present =>
        set_werkingsgebied
          (assoc_set key_eqb activity_description (present ++ matched_descriptions) mapping)
    | None =>
        set_werkingsgebied
          (assoc_set key_eqb activity_description matched_descriptions mapping)
    end
  else lift (Raise TypeError).

Definition write_werkingsgebieden_to_file (self : RTR) : M unit :=
  let file_path :=
    create_file_path self "log" ("werkingsgebieden_" +:+ args_date self +:+ ".txt") in
  mapping <- read werkingsgebied_per_activity ;;
  write_to_file self file_path mapping.

Definition update_werkingsgebied_per_activity (self : RTR) (json_data : json) : M unit :=
  if args_location self then
    activity_description <- lift (extract_activity_description json_data) ;;
    identifications <- lift (extract_identifications json_data) ;;
    matched_descriptions <- lift (match_descriptions self identifications) ;;
    _ <- update_activity_mapping activity_description matched_descriptions ;;
    write_werkingsgebieden_to_file self
  else ret tt.

(** Returns the payload, or [None] (here [JNull]) after a failed fetch. *)
Definition get_activity_data (self : RTR) (uri : string) : M json :=
  let url := compose_activity_url self uri in
  response <- get self url ;;
  if response_ok response then
    json_data <- lift (response_json response) ;;
    _ <- update_werkingsgebied_per_activity self json_data ;;
    lift (response_json response)
  else
    _ <- print ("Error fetching data for URI " +:+ uri +:+ ": "
                +:+ str_of_Z (status_code response)) ;;
    ret JNull.

Definition extract_werkzaamheden (data : json) : result (list json) :=
  links <~ py_getitem data "_links" ;;
  present <~ py_in "werkzaamheden" links ;;
  werkzaamheden_list <~
    (if present then
       links <~ py_getitem data "_links" ;;
       werkzaamheden <~ py_getitem links "werkzaamheden" ;;
       items <~ py_iter werkzaamheden ;;
       map_result
         (fun werkzaamheid =>
            href <~ py_getitem werkzaamheid "href" ;;
            parts <~ py_split href "/" ;;
            last_item parts)
         items
     else Ok []) ;;
  Ok (match werkzaamheden_list with
      | [] => [JStr ""]
      | _ => [JStr (String.concat ", " werkzaamheden_list)]
      end).

(** The body of the [try] in [extract_identifier] *)
Definition extract_identifier_try (self : RTR) (data : json) : result string :=
  links <~ py_get data "_links" (JObj []) ;;
  self_link <~ py_get links "self" (JObj []) ;;
  url <~ py_get self_link "href" (JStr "") ;;
  query <~ urlparse_query self url ;;
  parameters <~ parse_qs self query ;;
  let values :=
    match assoc String.eqb "functioneleStructuurRef" parameters with
    | Some values => values
    | None => [""]
    end in
  functionele_structuur_ref <~ item_at 0 values ;;
  last_item (split "/" functionele_structuur_ref).

Definition extract_identifier (self : RTR) (data : json) : string :=
  match extract_identifier_try self data with
  | Ok identifier => identifier
  | Raise _ => "Unknown"
  end.

(** [data['_embedded']['toepasbareRegels'][0]['_links']['sttrBestand']['href']] *)
Definition sttr_bestand_href (data : json) : result json :=
  embedded <~ py_getitem data "_embedded" ;;
  rules <~ py_getitem embedded "toepasbareRegels" ;;
  rule <~ py_getitem0 rules ;;
  links <~ py_getitem rule "_links" ;;
  sttr_bestand <~ py_getitem links "sttrBestand" ;;
  py_getitem sttr_bestand "href".

Definition append_sttr_file (self : RTR) (urn_name : string)
    (regelbeheerobject_type : json) (data : json) : M unit :=
  try_except_KeyError
    (href <- lift (sttr_bestand_href data) ;;
     if negb (is_str "null" regelbeheerobject_type) then
       replaced <- lift (py_replace regelbeheerobject_type " " "_") ;;
       let regelbeheerobject_name := urn_name +:+ "_" +:+ replaced in
       set_sttr_url regelbeheerobject_name href
     else ret tt)
    (fun e =>
       let identifier := extract_identifier self data in
       print ("Data missing key: '" +:+ str_of_key self e
              +:+ "'. Regelbeheerobject: " +:+ identifier)).

Definition get_last_change_date (data : json) : result json :=
  embedded <~ py_get data "_embedded" (JObj []) ;;
  applicable_rules <~ py_get embedded "toepasbareRegels" (JArr []) ;;
  if py_truthy applicable_rules then
    rule <~ py_getitem0 applicable_rules ;;
    py_get rule "laatsteWijzigingDatum" (JStr "")
  else Ok (JStr "").

(** Falls off its end, returning [None] (here [JNull]), when the response
    is not ok. *)
Definition get_regelbeheerobject (self : RTR) (urn_name : string)
    (object_type functional_structure_reference : json) : M json :=
  let url := compose_regel_beheer_object_url self functional_structure_reference in
  response <- get self url ;;
  if response_ok response then
    data <- lift (response_json response) ;;
    _ <- append_sttr_file self urn_name object_type data ;;
    lift (get_last_change_date data)
  else ret JNull.

(** The first three lines of [process_individual_object]: the type the
    object is filed under. *)
Definition effective_object_type (object : json) : result json :=
  object_type <~ py_getitem object "typering" ;;
  if is_str "Indieningsvereisten" object_type then
    toestemming <~ py_getitem object "toestemming" ;;
    py_getitem toestemming "waarde"
  else Ok object_type.

Definition process_individual_object (self : RTR) (urn_name : string) (object : json)
  : M (json * json) :=
  object_type <- lift (effective_object_type object) ;;
  functional_structure_reference <- lift (py_getitem object "functioneleStructuurRef") ;;
  last_changed <-
    get_regelbeheerobject self urn_name object_type functional_structure_reference ;;
  ret (object_type, last_changed).

Definition category_names : list string :=
  ["Conclusie"; "Melding"; "Aanvraag vergunning"; "Informatie"].

(** [object_type in {"Conclusie", ...}] *)
Definition in_categories (object_type : json) : result bool :=
  if hashable object_type
  then Ok (existsb (fun c => is_str c object_type) category_names)
  else Raise TypeError.

(** [names.index(v)] *)
Fixpoint list_index (v : json) (names : list string) : result nat :=
  match names with
  | [] => Raise ValueError
  | c :: names' => if is_str c v then Ok 0 else i <~ list_index v names' ;; Ok (S i)
  end.

(** [l[i] = v] *)
Fixpoint list_assign {A} (i : nat) (v : A) (l : list A) : result (list A) :=
  match l, i with
  | [], _ => Raise IndexError
  | _ :: l', O => Ok (v :: l')
  | x :: l', S i' => r <~ list_assign i' v l' ;; Ok (x :: r)
  end.

(** One turn of the loop of [fetch_and_process_changes] *)
Definition process_object (self : RTR) (urn_name : string) (changes : list json)
    (object : json) : M (list json) :=
  processed <- process_individual_object self urn_name object ;;
  let (object_type, last_changed) := processed : json * json in
  member <- lift (in_categories object_type) ;;
  if member : bool then
    index <- lift (list_index object_type category_names) ;;
    lift (list_assign index last_changed changes)
  else ret changes.

Definition fetch_and_process_changes (self : RTR) (data : json) : M (list json) :=
  urn <- lift (py_getitem data "urn") ;;
  parts <- lift (py_split urn ".") ;;
  urn_name <- lift (last_item parts) ;;
  let changes := [JStr ""; JStr ""; JStr ""; JStr ""] in
  present <- lift (py_in "regelBeheerObjecten" data) ;;
  if present : bool then
    regel_beheer_objecten <- lift (py_getitem data "regelBeheerObjecten") ;;
    objects <- lift (py_iter regel_beheer_objecten) ;;
    for_fold objects changes (process_object self urn_name)
  else ret changes.

Definition archive_activity_data (self : RTR) (row : nat)
    (name : json) (uri : string) (activity_group rule_reference : json) (data : json)
  : M unit :=
  werkzaamheden <- lift (extract_werkzaamheden data) ;;
  changes <- fetch_and_process_changes self data ;;
  let data_to_write :=
    [name; JStr uri; activity_group; rule_reference] ++ werkzaamheden ++ changes in
  write_data_to_cells row data_to_write.

Definition process_activity (self : RTR) (activity : activity) (row : nat) : M unit :=
  response_json <- get_activity_data self (act_uri activity) ;;
  if py_truthy response_json then
    archive_activity_data self row (act_name activity) (act_uri activity)
      (act_group activity) (act_rule_reference activity) response_json
  else ret tt.

(** One turn of the loop of [archive_sttr_files] *)
Definition archive_sttr_file (self : RTR) (entry : string * json) : M unit :=
  let (key, url) := entry in
  parts <- lift (py_split url "/toepasbareRegels/") ;;
  rest <- lift (item_at 1 parts) ;;
  identifier <- lift (item_at 0 (split "/" rest)) ;;
  response <- get self (py_str self url) ;;
  if (status_code response =? 200)%Z then
    let file_path :=
      create_file_path self "log/STTR_RegelBeheerObjecten"
        ("STTR_" +:+ identifier +:+ "_" +:+ key +:+ ".xml") in
    write_to_file self file_path [(JStr key, [text response])]
  else
    print ("Failed to download data from " +:+ py_str self url
           +:+ ", status code: " +:+ str_of_Z (status_code response)).

Definition archive_sttr_files (self : RTR) : M unit :=
  entries <- read sttr_url_per_activity ;;
  for_each entries (archive_sttr_file self).

(** [for row, activity in enumerate(self.urns, 2)] *)
Fixpoint process_activities (self : RTR) (activities : list activity) (row : nat)
  : M unit :=
  match activities with
  | [] => ret tt
  | activity :: rest =>
      _ <- process_activity self activity row ;;
      process_activities self rest (S row)
  end.

Definition archive_activities (self : RTR) : M unit :=
  _ <- process_activities self (urns self) 2 ;;
  _ <- (if args_sttr self then archive_sttr_files self else ret tt) ;;
  close_workbook.

(** ** The words of the description, for the statements below *)

Fixpoint has_char (c : ascii) (s : string) : bool :=
  match s with
  | EmptyString => false
  | String c' rest => Ascii.eqb c' c || has_char c rest
  end.

Fixpoint only_char (c : ascii) (s : string) : bool :=
  match s with
  | EmptyString => true
  | String c' rest => Ascii.eqb c' c && only_char c rest
  end.

(** [segment] is what follows the last [c] of [text] (all of it when it
    has no [c]). *)
Definition final_segment_at (c : ascii) (text segment : string) : Prop :=
  has_char c segment = false /\
  (text = segment \/ exists before, text = before +:+ String c segment).

(** The final dot-delimited segment of an identifier. *)
Definition final_segment (identifier segment : string) : Prop :=
  final_segment_at "." identifier segment.

(** [index] is the last two characters of [segment] (all of it when it is
    shorter). *)
Definition last_two_characters (segment index : string) : Prop :=
  exists before,
    segment = before +:+ index /\
    (String.length index = 2 \/ (before = "" /\ String.length index < 2)).

(** [key] is [index] without its leading zeros. *)
Definition leading_zeros_stripped (index key : string) : Prop :=
  (forall rest, key <> String "0" rest) /\
  exists zeros, only_char "0" zeros = true /\ index = zeros +:+ key.

(** The slot of a category in the change vector. *)
Definition slot (category : string) : option nat :=
  match list_index (JStr category) category_names with
  | Ok i => Some i
  | Raise _ => None
  end.

(** ** A small world for the examples *)

(** [urllib.parse.urlparse(url).query] and [urllib.parse.parse_qs] on the
    URLs of the examples: plain text, no escapes and no [+].  The query is
    what stands between the first [?] and the first [#]; [parse_qs] splits
    it at [&], each field at its first [=], and drops a field without a
    value.  On anything else than a string they raise here. *)
Definition plain_urlparse_query (url : json) : result string :=
  match url with
  | JStr u =>
      match split "#" u with
      | before_fragment :: _ =>
          Ok (String.concat "?" (tl (split "?" before_fragment)))
      | [] => Ok ""
      end
  | _ => Raise TypeError
  end.

Fixpoint add_value (name value : string) (d : list (string * list string))
  : list (string * list string) :=
  match d with
  | [] => [(name, [value])]
  | (n, vs) :: d' =>
      if String.eqb n name then (n, vs ++ [value]) :: d'
      else (n, vs) :: add_value name value d'
  end.

Definition plain_parse_qs (query : string) : result (list (string * list string)) :=
  Ok (fold_left
        (fun d pair =>
           match split "=" pair with
           | name :: (_ :: _) as rest =>
               let value := String.concat "=" rest in
               if String.eqb value "" then d else add_value name value d
           | _ => d
           end)
        (split "&" query) []).

(** ** Example data *)

Definition demo_date : string := "01-02-2024".

Definition demo_rule_url (ref : string) : string :=
  compose_base_url "prod"
  +:+ "/toepasbareregelsuitvoerengegevens/v1/toepasbareRegels?functioneleStructuurRef="
  +:+ ref +:+ "&datum=" +:+ demo_date.

Definition demo_activity_url (uri : string) : string :=
  compose_base_url "prod" +:+ "/rtrgegevens/v2/activiteiten/" +:+ uri
  +:+ "?datum=" +:+ demo_date.

(** An applicable-rule record with one rule: its date, its document and
    the link to itself. *)
Definition rule_record (ref date href : string) : json :=
  JObj [("_embedded",
         JObj [("toepasbareRegels",
                JArr [JObj [("laatsteWijzigingDatum", JStr date);
                            ("_links",
                             JObj [("sttrBestand", JObj [("href", JStr href)])])]])]);
        ("_links", JObj [("self", JObj [("href", JStr (demo_rule_url ref))])])].

Definition rule_object (typering ref : string) : json :=
  JObj [("typering", JStr typering); ("functioneleStructuurRef", JStr ref)].

Definition found (data : json) : response := mkResponse 200 (Some data) "".
Definition not_found : response := mkResponse 404 None "Not Found".
Definition server_error : response := mkResponse 500 None "Internal Server Error".

(** A server that answers by URL, whatever was asked before. *)
Definition serves (pages : list (string * response)) (n : nat) (url : string)
  : response :=
  match assoc String.eqb url pages with
  | Some r => r
  | None => not_found
  end.

(** The directory of a path: what comes before its last "/". *)
Definition dirname (path : string) : string :=
  String.concat "/" (removelast (split "/" path)).

(** A file system with the two directories the run writes to: a file can
    be opened in them, and nowhere else. *)
Definition demo_writable (path : string) : bool :=
  existsb (String.eqb (dirname path))
    ["/srv/rtr/log"; "/srv/rtr/log/STTR_RegelBeheerObjecten"].

Definition demo_rtr (location : bool) (pages : list (string * response)) : RTR :=
  mkRTR "/srv/rtr" "prod" demo_date true location [] [("7", "Polder X")]
    (serves pages) plain_urlparse_query plain_parse_qs (fun _ => "[...]")
    demo_writable.

(** ** Frames *)

(** A method leaves the part [f] of the state as it found it, whether it
    returns or raises. *)
Definition keeps {T A} (f : state -> T) (m : M A) : Prop :=
  forall st, f (snd (m st)) = f st.

(** The state with another location map and other files. *)
Definition put_location (w : list (json * list string)) (fs : list (string * string))
    (st : state) : state :=
  mkState (sttr_url_per_activity st) w (requests st) (stdout st) fs (sheet st)
    (workbook_closed st).

(** A method neither reads nor writes the location map and the files: it
    does the same from a state that differs in them only, and hands them
    on untouched. *)
Definition location_blind {A} (m : M A) : Prop :=
  forall st w fs,
    m (put_location w fs st) = (fst (m st), put_location w fs (snd (m st))).

(** The object with the location flag set to [flag]. *)
Definition with_location (self : RTR) (flag : bool) : RTR :=
  mkRTR (base_dir self) (args_env self) (args_date self) (args_sttr self) flag
    (urns self) (geo_variables self) (session_get self) (urlparse_query self)
    (parse_qs self) (repr_container self) (writable self).

(** The object is filed under [category]. *)
Definition classifies (object : json) (category : string) : Prop :=
  effective_object_type object = Ok (JStr category).

(** [s] with every space turned into an underscore. *)
Fixpoint spaces_as_underscores (s : string) : string :=
  match s with
  | EmptyString => EmptyString
  | String c rest =>
      String (if Ascii.eqb c " " then "_"%char else c) (spaces_as_underscores rest)
  end.

(** The location step of [get_activity_data] returns for the payload the
    server sends for the activity. *)
Definition location_step_completes (self : RTR) (activity : activity) (st : state)
  : Prop :=
  let url := compose_activity_url self (act_uri activity) in
  let r := session_get self (requests st) url in
  forall data,
    response_ok r = true ->
    response_json r = Ok data ->
    fst (update_werkingsgebied_per_activity self data (snd (get self url st))) = Ok tt.

(** An activity with two notifications; the server has the rule of the
    first and fails on the second. *)
Definition melding_payload (objects : list json) : json :=
  JObj [("urn", JStr "nl.imow-ws0636.activiteit.Graven");
        ("_links", JObj []);
        ("regelBeheerObjecten", JArr objects)].

Definition melding_pages : list (string * response) :=
  [(demo_rule_url "ref/m1",
    found (rule_record "ref/m1" "2023-05-01" "https://h/api/toepasbareRegels/m1/sttr"));
   (demo_rule_url "ref/m2", server_error)].

(** An activity with two objects filed under "Informatie", the second
    through its permission value. *)
Definition informatie_payload : json :=
  JObj [("urn", JStr "nl.imow-ws0636.activiteit.Lozen");
        ("_links", JObj []);
        ("regelBeheerObjecten",
         JArr [rule_object "Informatie" "ref/i1";
               JObj [("typering", JStr "Indieningsvereisten");
                     ("toestemming", JObj [("waarde", JStr "Informatie")]);
                     ("functioneleStructuurRef", JStr "ref/i2")]])].

Definition informatie_pages : list (string * response) :=
  [(demo_rule_url "ref/i1",
    found (rule_record "ref/i1" "2023-01-01" "https://h/api/toepasbareRegels/i1/sttr"));
   (demo_rule_url "ref/i2",
    found (rule_record "ref/i2" "2024-03-15" "https://h/api/toepasbareRegels/i2/sttr"))].

(** An activity without rule-management objects, and one whose only
    location has no identification. *)
Definition bare_payload : json :=
  JObj [("urn", JStr "nl.imow-ws0636.activiteit.Varen");
        ("omschrijving", JStr "Varen");
        ("locaties", JArr [JObj [("identificatie", JStr "nl.imow-ws0636.gebied.007")]]);
        ("_links", JObj [])].

Definition unlocated_payload : json :=
  JObj [("urn", JStr "nl.imow-ws0636.activiteit.Varen");
        ("omschrijving", JStr "Varen");
        ("locaties", JArr [JObj []]);
        ("_links", JObj [])].

Definition varen : activity :=
  mkActivity (JStr "Varen") "Varen" (JStr "Water") (JStr "ref-varen").

Definition varen_pages (payload : json) : list (string * response) :=
  [(demo_activity_url "Varen", found payload)].

(** ** Words for the further properties *)

(** The rows a pass over [activities] may write when it numbers them from
    [start]: each activity has its row or none, in the order of the
    activities; the row of an activity carries the number of its place and
    starts with its name, URI, group and rule reference, followed by five
    more cells. *)
Fixpoint rows_of (start : nat) (activities : list activity)
    (rows : list (nat * list json)) : Prop :=
  match activities with
  | [] => rows = []
  | a :: rest =>
      rows_of (S start) rest rows \/
      exists cells more,
        rows = (start,
                [act_name a; JStr (act_uri a); act_group a; act_rule_reference a]
                ++ cells) :: more /\
        length cells = 5 /\
        rows_of (S start) rest more
  end.

(** A hashable value as a dict sees it: equal keys have the same code. *)
Definition key_code (v : json) : option (unit + Z + string) :=
  match v with
  | JNull => Some (inl (inl tt))
  | JBool b => Some (inl (inr (if b then 1 else 0)%Z))
  | JNum n => Some (inl (inr n))
  | JStr s => Some (inr s)
  | _ => None
  end.



(** The identifier that [archive_sttr_file] takes from the URL of an
    entry: [url.split('/toepasbareRegels/')[1].split('/')[0]]. *)
Definition sttr_identifier (url : json) : result string :=
  parts <~ py_split url "/toepasbareRegels/" ;;
  rest <~ item_at 1 parts ;;
  item_at 0 (split "/" rest).



(** A payload object under ["_links"]["werkzaamheden"], with its href. *)
Definition has_href (item : json) (href : string) : Prop :=
  py_getitem item "href" = Ok (JStr href).

(** A location of a payload, with its identification. *)
Definition has_identificatie (loc : json) (identifier : string) : Prop :=
  py_getitem loc "identificatie" = Ok (JStr identifier).

(** ** More example data *)

Definition graven : activity :=
  mkActivity (JStr "Graven") "Graven" (JStr "Grond") (JStr "ref-graven").

Definition lozen : activity :=
  mkActivity (JStr "Lozen") "Lozen" (JStr "Water") (JStr "ref-lozen").

Definition dempen : activity :=
  mkActivity (JStr "Dempen") "Dempen" (JStr "Water") (JStr "ref-dempen").

(** A run over three activities: the server has no page for the second,
    and it has the document of the first rule of the third only. *)
Definition run_pages : list (string * response) :=
  (demo_activity_url "Varen", found bare_payload)
  :: (demo_activity_url "Lozen", found informatie_payload)
  :: ("https://h/api/toepasbareRegels/i1/sttr", mkResponse 200 None "<sttr/>")
  :: informatie_pages.

Definition demo_run : RTR :=
  mkRTR "/srv/rtr" "prod" demo_date true true [varen; dempen; lozen]
    [("7", "Polder X")] (serves run_pages) plain_urlparse_query plain_parse_qs
    (fun _ => "[...]") demo_writable.

(** An applicable-rule record whose list of rules is empty. *)
Definition empty_rules_record : json :=
  JObj [("_embedded", JObj [("toepasbareRegels", JArr [])])].

(** A payload without URN, and the pages of a run that meets it second. *)
Definition nameless_payload : json := JObj [("_links", JObj [])].

Definition broken_run : RTR :=
  mkRTR "/srv/rtr" "prod" demo_date true false [varen; dempen; lozen]
    [("7", "Polder X")]
    (serves ((demo_activity_url "Varen", found bare_payload)
             :: (demo_activity_url "Dempen", found nameless_payload)
             :: (demo_activity_url "Lozen", found informatie_payload)
             :: informatie_pages))
    plain_urlparse_query plain_parse_qs (fun _ => "[...]") demo_writable.

(** * Proofs *)

(** ** Strings *)

Lemma append_assoc (a b c : string) : (a +:+ b) +:+ c = a +:+ (b +:+ c).
Proof. induction a as [|x a IH]; simpl; [reflexivity | now rewrite IH]. Qed.

Lemma append_empty_r (a : string) : a +:+ "" = a.
Proof. induction a as [|x a IH]; simpl; [reflexivity | now rewrite IH]. Qed.

Lemma has_char_append (c : ascii) (a b : string) :
  has_char c (a +:+ b) = has_char c a || has_char c b.
Proof.
  induction a as [|x a IH]; simpl; [reflexivity|].
  rewrite IH. now rewrite orb_assoc.
Qed.

Lemma prefix_empty (s : string) : String.prefix "" s = true.
Proof. now destruct s. Qed.

Lemma last_item_cons {A} (x : A) (l : list A) (y : A) :
  last_item l = Ok y -> last_item (x :: l) = Ok y.
Proof. destruct l; simpl; [discriminate | trivial]. Qed.

(** The last piece of a split at a character is free of it and ends the
    text. *)
Lemma split_from_char_last (sep : ascii) (s cur : string) :
  has_char sep cur = false ->
  exists segment,
    last_item (split_from (String sep "") 0 cur s) = Ok segment /\
    final_segment_at sep (cur +:+ s) segment.
Proof.
  revert cur. induction s as [|c s IH]; intros cur Hcur.
  - exists cur. simpl. rewrite append_empty_r.
    split; [reflexivity|]. split; [assumption | now left].
  - cbn [split_from String.prefix String.length Nat.sub].
    destruct (ascii_dec sep c) as [<-|Hc].
    + rewrite prefix_empty.
      destruct (IH "" eq_refl) as (segment & Hlast & Hfree & Hend).
      exists segment. split; [now apply last_item_cons|].
      split; [assumption|]. right. simpl in Hend.
      destruct Hend as [->|(before & ->)].
      * now exists cur.
      * exists (cur +:+ String sep before). now rewrite !append_assoc.
    + destruct (IH (cur +:+ String c "")) as (segment & Hlast & Hfree & Hend).
      * rewrite has_char_append, Hcur. simpl.
        rewrite orb_false_r. apply Ascii.eqb_neq. congruence.
      * exists segment. split; [assumption|].
        rewrite append_assoc in Hend. now split.
Qed.

Lemma substring_whole (s : string) (k : nat) :
  String.length s <= k -> substring 0 k s = s.
Proof.
  revert k. induction s as [|c s IH]; intros [|k] H; simpl in *;
    try reflexivity; try lia.
  f_equal. apply IH. lia.
Qed.

Lemma substring_end (s : string) (n : nat) :
  n <= String.length s ->
  exists before,
    s = before +:+ substring n (String.length s - n) s /\
    String.length (substring n (String.length s - n) s) = String.length s - n.
Proof.
  revert n. induction s as [|c s IH]; intros [|n] H; simpl in *.
  - now exists "".
  - lia.
  - exists "". simpl. rewrite substring_whole by lia. split; [reflexivity|].
    simpl. reflexivity.
  - destruct (IH n) as (before & Heq & Hlen); [lia|].
    exists (String c before). simpl. split; [now f_equal | assumption].
Qed.

Lemma slice_last_two (s : string) : last_two_characters s (slice_last 2 s).
Proof.
  unfold last_two_characters, slice_last.
  destruct (Nat.le_gt_cases 2 (String.length s)) as [Hlong|Hshort].
  - destruct (substring_end s (String.length s - 2)) as (before & Heq & Hlen);
      [lia|].
    replace (String.length s - (String.length s - 2)) with 2 in * by lia.
    exists before. split; [assumption | now left].
  - replace (String.length s - 2) with 0 by lia.
    rewrite substring_whole by lia.
    exists "". split; [reflexivity | right; split; [reflexivity | lia]].
Qed.

Lemma lstrip_zeros (s : string) : leading_zeros_stripped s (lstrip "0" s).
Proof.
  unfold leading_zeros_stripped. induction s as [|c s [Hkey (zeros & Hz & Heq)]].
  - split; [discriminate | now exists ""].
  - simpl. destruct (Ascii.eqb_spec c "0") as [->|Hc].
    + split; [assumption|]. exists (String "0" zeros). simpl.
      rewrite Hz. split; [reflexivity | now f_equal].
    + split; [congruence | now exists ""].
Qed.

(** ** The geo resolver *)

(** C6.  For every identifier string [get_description] returns and never
    raises: the jurisdiction's own identifier gives "ambtsgebied HDSR"
    whatever the table holds; any other gives the table's entry under the
    key made of the last two characters of the final dot-delimited segment
    without their leading zeros, or "null: " followed by the identifier
    when the table has no such key. *)
Theorem get_description_resolves (self : RTR) (identifier : string) :
  exists segment index key,
    final_segment identifier segment /\
    last_two_characters segment index /\
    leading_zeros_stripped index key /\
    get_description self (JStr identifier) =
      Ok (if String.eqb identifier "nl.imow-ws0636.ambtsgebied.HDSR"
          then "ambtsgebied HDSR"
          else match assoc String.eqb key (geo_variables self) with
               | Some description => description
               | None => "null: " +:+ identifier
               end).
Proof.
  destruct (split_from_char_last "." identifier "" eq_refl)
    as (segment & Hlast & Hseg).
  simpl in Hseg.
  exists segment, (slice_last 2 segment), (lstrip "0" (slice_last 2 segment)).
  split; [assumption|]. split; [apply slice_last_two|].
  split; [apply lstrip_zeros|].
  unfold get_description, is_str.
  destruct (String.eqb identifier "nl.imow-ws0636.ambtsgebied.HDSR");
    [reflexivity|].
  unfold py_split, split, rbind. rewrite Hlast. reflexivity.
Qed.

(** The examples of the description. *)
Example get_description_polder (self : RTR) :
  geo_variables self = [("7", "Polder X")] ->
  get_description self (JStr "nl.imow-ws0636.gebied.007") = Ok "Polder X".
Proof. intros H. unfold get_description. rewrite H. reflexivity. Qed.

Example get_description_miss (self : RTR) :
  geo_variables self = [] ->
  get_description self (JStr "nl.imow-ws0636.gebied.007") =
    Ok "null: nl.imow-ws0636.gebied.007".
Proof. intros H. unfold get_description. rewrite H. reflexivity. Qed.

(** ** Methods and frames *)

Section Frame.
Context {T : Type} (f : state -> T).

Lemma keeps_ret {A} (a : A) : keeps f (ret a).
Proof. intros st. reflexivity. Qed.

Lemma keeps_lift {A} (r : result A) : keeps f (lift r).
Proof. intros st. reflexivity. Qed.

Lemma keeps_read {A} (g : state -> A) : keeps f (read g).
Proof. intros st. reflexivity. Qed.

Lemma keeps_bind {A B} (m : M A) (k : A -> M B) :
  keeps f m -> (forall a, keeps f (k a)) -> keeps f (bind m k).
Proof.
  intros Hm Hk st. unfold bind. specialize (Hm st).
  destruct (m st) as [[a|e] st1]; simpl in *.
  - now rewrite Hk.
  - assumption.
Qed.

Lemma keeps_try {A} (m : M A) (h : json -> M A) :
  keeps f m -> (forall key, keeps f (h key)) -> keeps f (try_except_KeyError m h).
Proof.
  intros Hm Hh st. unfold try_except_KeyError. specialize (Hm st).
  destruct (m st) as [[a|[key| | | | | |]] st1]; simpl in *; try assumption.
  now rewrite Hh.
Qed.

Lemma keeps_for_fold {A S} (l : list A) (acc : S) (body : S -> A -> M S) :
  (forall s x, keeps f (body s x)) -> keeps f (for_fold l acc body).
Proof.
  intros Hbody. revert acc.
  induction l as [|x l IH]; intros acc; simpl.
  - apply keeps_ret.
  - apply keeps_bind; [apply Hbody | intros; apply IH].
Qed.

Lemma keeps_for_each {A} (l : list A) (body : A -> M unit) :
  (forall x, keeps f (body x)) -> keeps f (for_each l body).
Proof.
  intros Hbody. induction l as [|x l IH]; simpl.
  - apply keeps_ret.
  - apply keeps_bind; [apply Hbody | intros; apply IH].
Qed.
End Frame.

(** Takes a frame goal apart along the structure of the method. *)
Ltac frame :=
  repeat first
    [ apply keeps_ret
    | apply keeps_lift
    | apply keeps_read
    | apply keeps_bind; [|intros ?]
    | apply keeps_try; [|intros ?]
    | apply keeps_for_fold; intros ? ?
    | apply keeps_for_each; intros ?
    | match goal with
      | |- keeps _ (if ?b then _ else _) => destruct b
      | |- keeps _ (match ?x with _ => _ end) => destruct x
      end
    | (intros ?; reflexivity)
    | (intros ?; unfold store_file; destruct (writable _ _); reflexivity) ].

Lemma location_blind_ret {A} (a : A) : location_blind (ret a).
Proof. intros st w fs. reflexivity. Qed.

Lemma location_blind_lift {A} (r : result A) : location_blind (lift r).
Proof. intros st w fs. reflexivity. Qed.

Lemma location_blind_bind {A B} (m : M A) (k : A -> M B) :
  location_blind m -> (forall a, location_blind (k a)) -> location_blind (bind m k).
Proof.
  intros Hm Hk st w fs. unfold bind. rewrite Hm.
  destruct (m st) as [[a|e] st1]; simpl.
  - apply Hk.
  - reflexivity.
Qed.

Lemma location_blind_try {A} (m : M A) (h : json -> M A) :
  location_blind m -> (forall key, location_blind (h key)) ->
  location_blind (try_except_KeyError m h).
Proof.
  intros Hm Hh st w fs. unfold try_except_KeyError. rewrite Hm.
  destruct (m st) as [[a|[key| | | | | |]] st1]; simpl; try reflexivity.
  apply Hh.
Qed.

Lemma location_blind_for_fold {A S} (l : list A) (acc : S) (body : S -> A -> M S) :
  (forall s x, location_blind (body s x)) -> location_blind (for_fold l acc body).
Proof.
  intros Hbody. revert acc.
  induction l as [|x l IH]; intros acc; simpl.
  - apply location_blind_ret.
  - apply location_blind_bind; [apply Hbody | intros; apply IH].
Qed.

Ltac blind :=
  repeat first
    [ apply location_blind_ret
    | apply location_blind_lift
    | apply location_blind_bind; [|intros ?]
    | apply location_blind_try; [|intros ?]
    | apply location_blind_for_fold; intros ? ?
    | match goal with
      | |- location_blind (if ?b then _ else _) => destruct b
      | |- location_blind (match ?x with _ => _ end) => destruct x
      end
    | (intros ? ? ?; reflexivity) ].


(** ** Classification *)

Lemma is_str_true (s : string) (v : json) : is_str s v = true <-> v = JStr s.
Proof.
  destruct v; simpl; try (split; [discriminate | congruence]).
  rewrite String.eqb_eq. split; congruence.
Qed.

Lemma is_str_false (s : string) (v : json) : is_str s v = false <-> v <> JStr s.
Proof.
  rewrite <- is_str_true. destruct (is_str s v); split; congruence.
Qed.

(** What [process_individual_object] returns first is the type its first
    lines compute. *)
Lemma process_individual_object_type (self : RTR) (urn_name : string)
    (object object_type last_changed : json) (st st' : state) :
  process_individual_object self urn_name object st
    = (Ok (object_type, last_changed), st') ->
  effective_object_type object = Ok object_type.
Proof.
  unfold process_individual_object, bind, lift, ret.
  destruct (effective_object_type object) as [t|e]; [|discriminate].
  destruct (py_getitem object "functioneleStructuurRef") as [ref|e]; [|discriminate].
  destruct (get_regelbeheerobject self urn_name t ref st) as [[d|e] st1];
    [|discriminate].
  congruence.
Qed.

(** C4.  An object whose raw type is "Indieningsvereisten" is filed under
    the value at [toestemming.waarde]; an object of any other raw type is
    filed under the raw type itself, whatever its [toestemming] field holds
    or lacks; and this is the type [process_individual_object] returns. *)
Theorem effective_object_type_rule (self : RTR) (urn_name : string)
    (object raw : json) :
  py_getitem object "typering" = Ok raw ->
  (raw = JStr "Indieningsvereisten" ->
   effective_object_type object =
     (toestemming <~ py_getitem object "toestemming" ;;
      py_getitem toestemming "waarde")) /\
  (raw <> JStr "Indieningsvereisten" ->
   forall other,
     py_getitem other "typering" = Ok raw -> effective_object_type other = Ok raw) /\
  (forall st object_type last_changed st',
     process_individual_object self urn_name object st
       = (Ok (object_type, last_changed), st') ->
     effective_object_type object = Ok object_type).
Proof.
  intros Hraw. split; [|split].
  - intros ->. unfold effective_object_type. rewrite Hraw. reflexivity.
  - intros Hother other Hraw'. unfold effective_object_type.
    rewrite Hraw'. simpl.
    apply is_str_false in Hother. now rewrite Hother.
  - intros st object_type last_changed st'.
    apply process_individual_object_type.
Qed.

(** ** The archive index *)

Lemma split_from_nonempty (sep : string) (s : string) (skip : nat) (cur : string) :
  split_from sep skip cur s <> [].
Proof.
  revert skip cur. induction s as [|c s IH]; intros skip cur; cbn [split_from].
  - discriminate.
  - destruct skip; [|apply IH].
    destruct (String.prefix sep (String c s)); [discriminate | apply IH].
Qed.

Lemma concat_cons (sep x : string) (l : list string) :
  l <> [] -> String.concat sep (x :: l) = x +:+ sep +:+ String.concat sep l.
Proof. destruct l; [congruence | reflexivity]. Qed.

Lemma replace_space_from (s cur : string) :
  String.concat "_" (split_from " " 0 cur s) = cur +:+ spaces_as_underscores s.
Proof.
  revert cur. induction s as [|c s IH]; intros cur.
  - simpl. now rewrite append_empty_r.
  - cbn [split_from String.prefix String.length Nat.sub spaces_as_underscores].
    destruct (ascii_dec " " c) as [<-|Hc].
    + rewrite prefix_empty, concat_cons by apply split_from_nonempty.
      rewrite IH. reflexivity.
    + rewrite IH, append_assoc. simpl.
      replace (Ascii.eqb c " ") with false; [reflexivity|].
      symmetry. apply Ascii.eqb_neq. congruence.
Qed.

(** [replace(" ", "_")] turns every space into an underscore. *)
Lemma replace_spaces (s : string) : replace " " "_" s = spaces_as_underscores s.
Proof. unfold replace, split. now rewrite replace_space_from. Qed.

Lemma assoc_set_same {V} (k : string) (v : V) (d : list (string * V)) :
  assoc String.eqb k (assoc_set String.eqb k v d) = Some v.
Proof.
  induction d as [|[k' v'] d IH]; simpl.
  - now rewrite String.eqb_refl.
  - destruct (String.eqb k' k) eqn:E; simpl; now rewrite E.
Qed.

(** C5.  [append_sttr_file] leaves the archive index as it is when the
    type is the string "null", also with a document href at hand, and when
    the href cannot be taken from the record; when the href is there and
    the type is any other string, it returns with the href stored under
    the URN's short name, an underscore, and the type with its spaces
    turned into underscores. *)
Theorem append_sttr_file_index (self : RTR) (urn_name : string)
    (object_type data : json) (st : state) :
  let after := snd (append_sttr_file self urn_name object_type data st) in
  (object_type = JStr "null" ->
   sttr_url_per_activity after = sttr_url_per_activity st) /\
  (forall e, sttr_bestand_href data = Raise e ->
   sttr_url_per_activity after = sttr_url_per_activity st) /\
  (forall href category,
     sttr_bestand_href data = Ok href ->
     object_type = JStr category -> category <> "null" ->
     let key := urn_name +:+ "_" +:+ spaces_as_underscores category in
     fst (append_sttr_file self urn_name object_type data st) = Ok tt /\
     sttr_url_per_activity after
       = assoc_set String.eqb key href (sttr_url_per_activity st) /\
     assoc String.eqb key (sttr_url_per_activity after) = Some href).
Proof.
  unfold append_sttr_file, try_except_KeyError, bind, lift.
  split; [|split].
  - intros ->. simpl.
    destruct (sttr_bestand_href data) as [href|[key| | | | | |]]; reflexivity.
  - intros e ->. destruct e; reflexivity.
  - intros href category -> -> Hcat.
    replace (is_str "null" (JStr category)) with false
      by (symmetry; apply is_str_false; congruence).
    simpl. rewrite replace_spaces.
    split; [reflexivity|]. split; [reflexivity|]. apply assoc_set_same.
Qed.

(** ** Work items *)

(** C10.  A payload without the key "_links" makes [extract_werkzaamheden]
    raise the key error for "_links"; with an object under "_links", and the
    work-item list in it absent or empty, it returns the empty string as
    its one field. *)
Theorem extract_werkzaamheden_links (fields : list (string * json)) :
  (field "_links" fields = None ->
   extract_werkzaamheden (JObj fields) = Raise (KeyError (JStr "_links"))) /\
  (forall links,
     field "_links" fields = Some (JObj links) ->
     field "werkzaamheden" links = None \/
     field "werkzaamheden" links = Some (JArr []) ->
     extract_werkzaamheden (JObj fields) = Ok [JStr ""]).
Proof.
  unfold extract_werkzaamheden, py_getitem, py_in. split.
  - intros ->. reflexivity.
  - intros links -> [H|H]; simpl; rewrite H; reflexivity.
Qed.

(** ** The change vector *)

Lemma list_assign_nth {A} (i : nat) (v : A) (l l' : list A) :
  list_assign i v l = Ok l' -> nth_error l' i = Some v.
Proof.
  revert i l'. induction l as [|x l IH]; intros [|i] l' H; simpl in H;
    try discriminate.
  - now inversion H.
  - destruct (list_assign i v l) as [r|e] eqn:E; [|discriminate].
    inversion H; subst. simpl. now apply IH.
Qed.

Lemma list_assign_other {A} (i j : nat) (v : A) (l l' : list A) :
  list_assign i v l = Ok l' -> j <> i -> nth_error l' j = nth_error l j.
Proof.
  revert i j l'. induction l as [|x l IH]; intros [|i] [|j] l' H Hj; simpl in H;
    try discriminate; try congruence.
  - now inversion H.
  - destruct (list_assign i v l) as [r|e]; [|discriminate]. now inversion H.
  - destruct (list_assign i v l) as [r|e] eqn:E; [|discriminate].
    inversion H; subst. simpl. apply (IH i); [assumption | congruence].
Qed.

Lemma list_assign_length {A} (i : nat) (v : A) (l l' : list A) :
  list_assign i v l = Ok l' -> length l' = length l.
Proof.
  revert i l'. induction l as [|x l IH]; intros [|i] l' H; simpl in H;
    try discriminate.
  - now inversion H.
  - destruct (list_assign i v l) as [r|e] eqn:E; [|discriminate].
    inversion H; subst. simpl. f_equal. now apply (IH i).
Qed.

(** [index] finds a value at the place where its name stands. *)
Lemma list_index_name (v : json) (names : list string) (i : nat) :
  list_index v names = Ok i -> exists c, v = JStr c /\ nth_error names i = Some c.
Proof.
  revert i. induction names as [|c names IH]; intros i H; simpl in H;
    [discriminate|].
  destruct (is_str c v) eqn:E.
  - inversion H; subst. apply is_str_true in E. now exists c.
  - destruct (list_index v names) as [j|e]; [|discriminate].
    inversion H; subst. now apply IH.
Qed.

Lemma list_index_member (v : json) (names : list string) (i : nat) :
  list_index v names = Ok i -> existsb (fun c => is_str c v) names = true.
Proof.
  revert i. induction names as [|c names IH]; intros i H; simpl in *;
    [discriminate|].
  destruct (is_str c v); [reflexivity|]. simpl.
  destruct (list_index v names) as [j|e]; [|discriminate]. now apply (IH j).
Qed.

Lemma slot_index (category : string) (i : nat) :
  slot category = Some i -> list_index (JStr category) category_names = Ok i.
Proof.
  unfold slot. destruct (list_index (JStr category) category_names); congruence.
Qed.

(** One turn of the loop, when it returns: the object was processed, and
    its slot, if it has one, was assigned what the processing returned. *)
Lemma process_object_ok (self : RTR) (urn_name : string) (changes changes' : list json)
    (object : json) (st st' : state) :
  process_object self urn_name changes object st = (Ok changes', st') ->
  exists object_type last_changed,
    process_individual_object self urn_name object st
      = (Ok (object_type, last_changed), st') /\
    ((exists i, list_index object_type category_names = Ok i /\
                list_assign i last_changed changes = Ok changes') \/
     (in_categories object_type = Ok false /\ changes' = changes)).
Proof.
  unfold process_object, bind, lift, ret.
  destruct (process_individual_object self urn_name object st)
    as [[[object_type last_changed]|e] st1]; [|discriminate].
  intros H. exists object_type, last_changed.
  destruct (in_categories object_type) as [[|]|e]; [| |discriminate].
  - destruct (list_index object_type category_names) as [i|e]; [|discriminate].
    destruct (list_assign i last_changed changes) as [r|e] eqn:E; [|discriminate].
    inversion H; subst. split; [reflexivity|]. left. now exists i.
  - inversion H; subst. split; [reflexivity|]. now right.
Qed.

(** An object filed elsewhere leaves the slot alone. *)
Lemma process_object_other (self : RTR) (urn_name category : string) (i : nat)
    (changes changes' : list json) (object : json) (st st' : state) :
  slot category = Some i ->
  ~ classifies object category ->
  process_object self urn_name changes object st = (Ok changes', st') ->
  nth_error changes' i = nth_error changes i.
Proof.
  intros Hslot Hnot H.
  destruct (process_object_ok _ _ _ _ _ _ _ H)
    as (object_type & last_changed & Hp & [(j & Hj & Ha)|[_ ->]]);
    [|reflexivity].
  apply (list_assign_other j i _ _ _ Ha). intros ->.
  apply Hnot. unfold classifies.
  rewrite (process_individual_object_type _ _ _ _ _ _ _ Hp).
  apply slot_index, list_index_name in Hslot. apply list_index_name in Hj.
  destruct Hslot as (c & Hc & Hn), Hj as (c' & -> & Hn').
  congruence.
Qed.

Lemma process_objects_other (self : RTR) (urn_name category : string) (i : nat)
    (objects : list json) (changes changes' : list json) (st st' : state) :
  slot category = Some i ->
  (forall o, In o objects -> ~ classifies o category) ->
  for_fold objects changes (process_object self urn_name) st = (Ok changes', st') ->
  nth_error changes' i = nth_error changes i.
Proof.
  intros Hslot. revert changes st.
  induction objects as [|o objects IH]; intros changes st Hnot H; simpl in H.
  - unfold ret in H. now inversion H.
  - unfold bind in H.
    destruct (process_object self urn_name changes o st) as [[c1|e] st1] eqn:E;
      [|discriminate].
    rewrite (IH c1 st1); [| intros; apply Hnot; now right | assumption].
    apply (process_object_other _ _ _ _ _ _ _ _ _ Hslot (Hnot o (or_introl eq_refl)) E).
Qed.



(** ** The output row *)

Lemma last_item_ok {A} (l : list A) : l <> [] -> exists x, last_item l = Ok x.
Proof.
  induction l as [|x l IH]; [congruence|]. intros _.
  destruct l as [|y l]; [now exists x|].
  destruct IH as (z & Hz); [discriminate|]. exists z. exact Hz.
Qed.

(** The work items come as one string. *)
Lemma extract_werkzaamheden_one (data : json) (ws : list json) :
  extract_werkzaamheden data = Ok ws -> exists w, ws = [JStr w].
Proof.
  unfold extract_werkzaamheden, rbind.
  destruct (py_getitem data "_links") as [links|e]; [|discriminate].
  destruct (py_in "werkzaamheden" links) as [present|e]; [|discriminate].
  match goal with
  | |- match ?x with _ => _ end = _ -> _ => destruct x as [[|w l]|e]
  end; intros H; inversion H; eauto.
Qed.

Lemma process_object_length (self : RTR) (urn_name : string)
    (changes changes' : list json) (object : json) (st st' : state) :
  process_object self urn_name changes object st = (Ok changes', st') ->
  length changes' = length changes.
Proof.
  intros H.
  destruct (process_object_ok _ _ _ _ _ _ _ H)
    as (t & d & _ & [(i & _ & Ha)|[_ ->]]); [|reflexivity].
  apply (list_assign_length _ _ _ _ Ha).
Qed.

Lemma process_objects_length (self : RTR) (urn_name : string) (objects : list json)
    (changes changes' : list json) (st st' : state) :
  for_fold objects changes (process_object self urn_name) st = (Ok changes', st') ->
  length changes' = length changes.
Proof.
  revert changes st. induction objects as [|o objects IH]; intros changes st H;
    simpl in H.
  - unfold ret in H. now inversion H.
  - unfold bind in H.
    destruct (process_object self urn_name changes o st) as [[c1|e] st1] eqn:E;
      [|discriminate].
    rewrite (IH _ _ H). apply (process_object_length _ _ _ _ _ _ _ E).
Qed.

(** The change vector has four slots. *)
Lemma fetch_and_process_changes_length (self : RTR) (data : json)
    (changes : list json) (st st' : state) :
  fetch_and_process_changes self data st = (Ok changes, st') ->
  exists c0 c1 c2 c3, changes = [c0; c1; c2; c3].
Proof.
  intros H.
  assert (Hlen : length changes = 4).
  { revert H. unfold fetch_and_process_changes, bind, lift, ret.
    destruct (py_getitem data "urn") as [urn|e]; [|discriminate].
    destruct (py_split urn ".") as [parts|e]; [|discriminate].
    destruct (last_item parts) as [urn_name|e]; [|discriminate].
    destruct (py_in "regelBeheerObjecten" data) as [[|]|e]; [| |discriminate].
    - destruct (py_getitem data "regelBeheerObjecten") as [objs|e]; [|discriminate].
      destruct (py_iter objs) as [objects|e]; [|discriminate].
      intros H. now rewrite (process_objects_length _ _ _ _ _ _ _ H).
    - intros H. now inversion H. }
  destruct changes as [|c0 [|c1 [|c2 [|c3 [|c4 l]]]]]; try discriminate.
  now exists c0, c1, c2, c3.
Qed.

(** Reconciling the objects writes no row. *)
Lemma fetch_and_process_changes_sheet (self : RTR) (data : json) :
  keeps sheet (fetch_and_process_changes self data).
Proof.
  unfold fetch_and_process_changes, process_object, process_individual_object,
    get_regelbeheerobject, append_sttr_file.
  frame.
Qed.

(** C2, amended.  The row [archive_activity_data] writes has exactly nine
    fields: name, uri, group, rule reference, the work-items string that
    [extract_werkzaamheden] returns, and the four slots of the change
    vector that [fetch_and_process_changes] returns; it is written in the
    state the reconciliation of the objects left, and whenever the two
    return.  For a payload without rule-management objects (with its work
    items and its URN readable) the row is written, its four slots hold the
    empty string, and it has nine fields all the same. *)
Theorem archive_activity_data_row (self : RTR) (row : nat)
    (name : json) (uri : string) (activity_group rule_reference data : json)
    (st : state) :
  (forall st',
     archive_activity_data self row name uri activity_group rule_reference data st
       = (Ok tt, st') ->
     exists w c0 c1 c2 c3 st1,
       extract_werkzaamheden data = Ok [JStr w] /\
       fetch_and_process_changes self data st = (Ok [c0; c1; c2; c3], st1) /\
       st' = snd (write_data_to_cells row
                    [name; JStr uri; activity_group; rule_reference; JStr w;
                     c0; c1; c2; c3] st1) /\
       sheet st' = sheet st ++
         [(row, [name; JStr uri; activity_group; rule_reference; JStr w;
                 c0; c1; c2; c3])]) /\
  (forall ws changes st1,
     extract_werkzaamheden data = Ok ws ->
     fetch_and_process_changes self data st = (Ok changes, st1) ->
     length ([name; JStr uri; activity_group; rule_reference] ++ ws ++ changes) = 9 /\
     archive_activity_data self row name uri activity_group rule_reference data st
       = write_data_to_cells row
           ([name; JStr uri; activity_group; rule_reference] ++ ws ++ changes) st1) /\
  (forall ws urn,
     extract_werkzaamheden data = Ok ws ->
     py_getitem data "urn" = Ok (JStr urn) ->
     py_in "regelBeheerObjecten" data = Ok false \/
     py_getitem data "regelBeheerObjecten" = Ok (JArr []) ->
     exists w,
       ws = [JStr w] /\
       archive_activity_data self row name uri activity_group rule_reference data st
         = write_data_to_cells row
             [name; JStr uri; activity_group; rule_reference; JStr w;
              JStr ""; JStr ""; JStr ""; JStr ""] st).
Proof.
  split; [|split].
  - intros st'. unfold archive_activity_data, bind, lift.
    destruct (extract_werkzaamheden data) as [ws|e] eqn:Ew; [|discriminate].
    destruct (extract_werkzaamheden_one _ _ Ew) as (w & ->).
    pose proof (fetch_and_process_changes_sheet self data st) as Hsheet.
    destruct (fetch_and_process_changes self data st) as [[changes|e] st1] eqn:Ec;
      [|discriminate].
    destruct (fetch_and_process_changes_length _ _ _ _ _ Ec)
      as (c0 & c1 & c2 & c3 & ->).
    simpl in Hsheet. unfold write_data_to_cells. intros H. inversion H; subst.
    exists w, c0, c1, c2, c3, st1. simpl. rewrite Hsheet.
    repeat split; reflexivity.
  - intros ws changes st1 Ew Ec. split.
    + destruct (extract_werkzaamheden_one _ _ Ew) as (w & ->).
      destruct (fetch_and_process_changes_length _ _ _ _ _ Ec)
        as (c0 & c1 & c2 & c3 & ->).
      reflexivity.
    + unfold archive_activity_data, bind, lift. now rewrite Ew, Ec.
  - intros ws urn Ew Hurn Hnone.
    destruct (extract_werkzaamheden_one _ _ Ew) as (w & ->). exists w.
    split; [reflexivity|].
    unfold archive_activity_data, fetch_and_process_changes, bind, lift, ret.
    rewrite Ew, Hurn. unfold py_split.
    destruct (last_item_ok (split "." urn)) as (urn_name & ->);
      [apply split_from_nonempty|].
    destruct Hnone as [->|Hobjs]; [reflexivity|].
    assert (Hin : py_in "regelBeheerObjecten" data = Ok true).
    { unfold py_getitem in Hobjs. unfold py_in.
      destruct data; try discriminate.
      destruct (field "regelBeheerObjecten" fields); [reflexivity | discriminate]. }
    rewrite Hin, Hobjs. reflexivity.
Qed.

(** ** Recovering an identifier *)

(** C8, amended.  [extract_identifier] never raises.  It returns "Unknown"
    when a step of the recovery raises.  When the self link is read and
    parsed, it returns the final slash-delimited segment of the first value
    of the parameter functioneleStructuurRef, and the empty string when the
    query has no such parameter.  A record whose document href misses a key
    makes [append_sttr_file] print one line with that identifier and
    return, whatever [urllib.parse] does. *)
Theorem extract_identifier_recovers (self : RTR) (data : json) :
  (forall e,
     extract_identifier_try self data = Raise e ->
     extract_identifier self data = "Unknown") /\
  (forall links self_link url query parameters,
     py_get data "_links" (JObj []) = Ok links ->
     py_get links "self" (JObj []) = Ok self_link ->
     py_get self_link "href" (JStr "") = Ok url ->
     urlparse_query self url = Ok query ->
     parse_qs self query = Ok parameters ->
     match assoc String.eqb "functioneleStructuurRef" parameters with
     | Some (value :: _) => final_segment_at "/" value (extract_identifier self data)
     | Some [] => extract_identifier self data = "Unknown"
     | None => extract_identifier self data = ""
     end) /\
  (forall urn_name object_type key st,
     sttr_bestand_href data = Raise (KeyError key) ->
     append_sttr_file self urn_name object_type data st =
       (Ok tt,
        snd (print ("Data missing key: '" +:+ str_of_key self key
                    +:+ "'. Regelbeheerobject: " +:+ extract_identifier self data)
               st))).
Proof.
  split; [|split].
  - intros e H. unfold extract_identifier. now rewrite H.
  - intros links self_link url query parameters Hl Hs Hu Hq Hp.
    unfold extract_identifier, extract_identifier_try.
    rewrite Hl. simpl. rewrite Hs. simpl. rewrite Hu. simpl.
    rewrite Hq. simpl. rewrite Hp. simpl.
    destruct (assoc String.eqb "functioneleStructuurRef" parameters)
      as [[|value values]|]; [reflexivity| |reflexivity].
    unfold item_at. simpl.
    destruct (split_from_char_last "/" value "" eq_refl) as (segment & Hlast & Hseg).
    unfold split. rewrite Hlast. exact Hseg.
  - intros urn_name object_type key st H.
    unfold append_sttr_file, try_except_KeyError, bind, lift. rewrite H.
    reflexivity.
Qed.

(** ** The location flag *)

Lemma put_location_same (st : state) :
  put_location (werkingsgebied_per_activity st) (files st) st = st.
Proof. now destruct st. Qed.

(** A method blind to the location map and the files leaves both alone. *)
Lemma location_blind_keeps {A} (m : M A) (st : state) :
  location_blind m ->
  werkingsgebied_per_activity (snd (m st)) = werkingsgebied_per_activity st /\
  files (snd (m st)) = files st.
Proof.
  intros H.
  specialize (H st (werkingsgebied_per_activity st) (files st)).
  rewrite put_location_same in H.
  destruct (m st) as [r st1]. simpl in *.
  inversion H as [H1]. rewrite H1 at 1 2. now split.
Qed.

Lemma archive_activity_data_blind (self : RTR) (row : nat) (name : json)
    (uri : string) (activity_group rule_reference data : json) :
  location_blind
    (archive_activity_data self row name uri activity_group rule_reference data).
Proof.
  unfold archive_activity_data, fetch_and_process_changes, process_object,
    process_individual_object, get_regelbeheerobject, append_sttr_file.
  blind.
Qed.

(** The location step changes the location map and the files only. *)
Lemma update_werkingsgebied_only (self : RTR) (data : json) (st : state) :
  exists w fs,
    snd (update_werkingsgebied_per_activity self data st) = put_location w fs st.
Proof.
  unfold update_werkingsgebied_per_activity, update_activity_mapping,
    write_werkingsgebieden_to_file, write_to_file, bind, lift, read, ret.
  destruct (args_location self);
    [|exists (werkingsgebied_per_activity st), (files st);
      now rewrite put_location_same].
  destruct (extract_activity_description data) as [d|e];
    [|exists (werkingsgebied_per_activity st), (files st);
      now rewrite put_location_same].
  destruct (extract_identifications data) as [ids|e];
    [|exists (werkingsgebied_per_activity st), (files st);
      now rewrite put_location_same].
  destruct (match_descriptions self ids) as [ms|e];
    [|exists (werkingsgebied_per_activity st), (files st);
      now rewrite put_location_same].
  destruct (hashable d);
    [|exists (werkingsgebied_per_activity st), (files st);
      now rewrite put_location_same].
  simpl.
  destruct (assoc key_eqb d (werkingsgebied_per_activity st)); simpl;
    unfold store_file; simpl; destruct (writable self _); simpl;
    eexists; eexists; reflexivity.
Qed.

(** [process_activity], step by step. *)
Lemma process_activity_steps (self : RTR) (activity : activity) (row : nat)
    (st : state) :
  process_activity self activity row st =
  let url := compose_activity_url self (act_uri activity) in
  let r := session_get self (requests st) url in
  let st1 := snd (get self url st) in
  if response_ok r then
    match response_json r with
    | Ok data =>
        match update_werkingsgebied_per_activity self data st1 with
        | (Ok _, st2) =>
            if py_truthy data then
              archive_activity_data self row (act_name activity) (act_uri activity)
                (act_group activity) (act_rule_reference activity) data st2
            else (Ok tt, st2)
        | (Raise e, st2) => (Raise e, st2)
        end
    | Raise e => (Raise e, st1)
    end
  else
    (Ok tt,
     snd (print ("Error fetching data for URI " +:+ act_uri activity +:+ ": "
                 +:+ str_of_Z (status_code r)) st1)).
Proof.
  unfold process_activity, get_activity_data, bind, lift, ret. simpl.
  destruct (response_ok _); [|reflexivity].
  destruct (response_json _) as [data|e]; [|reflexivity].
  destruct (update_werkingsgebied_per_activity self data _) as [[[]|e] st2];
    [|reflexivity].
  now destruct (py_truthy data).
Qed.

(** C9, amended.  With the location flag off, processing an activity
    leaves the location map as it is and writes no file, whether it returns
    or raises.  And when the location step returns for the activity's
    payload, processing with the flag on gives what processing with the
    flag off gives, result, change vector, row, archive index, requests and
    printed lines alike: the two final states differ in the location map
    and the files only. *)
Theorem location_flag_frame (self : RTR) (activity : activity) (row : nat)
    (st : state) :
  let off := with_location self false in
  let on := with_location self true in
  (werkingsgebied_per_activity (snd (process_activity off activity row st))
     = werkingsgebied_per_activity st /\
   files (snd (process_activity off activity row st)) = files st) /\
  (location_step_completes on activity st ->
   exists w fs,
     process_activity on activity row st =
       (fst (process_activity off activity row st),
        put_location w fs (snd (process_activity off activity row st)))).
Proof.
  intros off on. split.
  - apply location_blind_keeps.
    unfold process_activity, get_activity_data, update_werkingsgebied_per_activity.
    change (args_location off) with false. cbv iota.
    blind.
  - intros Hstep. unfold location_step_completes in Hstep.
    rewrite !process_activity_steps. cbv zeta in *.
    change (compose_activity_url on (act_uri activity))
      with (compose_activity_url off (act_uri activity)) in *.
    set (url := compose_activity_url off (act_uri activity)) in *.
    change (session_get on (requests st) url)
      with (session_get off (requests st) url) in *.
    change (get on url st) with (get off url st) in *.
    set (r := session_get off (requests st) url) in *.
    set (st1 := snd (get off url st)) in *. clearbody st1.
    destruct (response_ok r) eqn:Hok.
    + destruct (response_json r) as [data|e] eqn:Hjson.
      * specialize (Hstep data eq_refl eq_refl).
        destruct (update_werkingsgebied_only on data st1) as (w & fs & Hloc).
        destruct (update_werkingsgebied_per_activity on data st1) as [res st2].
        simpl in Hstep, Hloc. subst res st2.
        change (update_werkingsgebied_per_activity off data st1) with (Ok tt, st1).
        exists w, fs. cbv iota.
        destruct (py_truthy data).
        -- change (archive_activity_data on) with (archive_activity_data off).
           apply archive_activity_data_blind.
        -- reflexivity.
      * exists (werkingsgebied_per_activity st1), (files st1).
        now rewrite put_location_same.
    + eexists; eexists; reflexivity.
Qed.

(** ** The theorems at work *)

Lemma effective_object_type_rule_witness :
  effective_object_type
    (JObj [("typering", JStr "Indieningsvereisten");
           ("toestemming", JObj [("waarde", JStr "Conclusie")]);
           ("functioneleStructuurRef", JStr "ref/c1")])
    = Ok (JStr "Conclusie") /\
  effective_object_type (rule_object "Melding" "ref/m1") = Ok (JStr "Melding") /\
  slot "Conclusie" = Some 0 /\
  slot "Melding" = Some 1.
Proof.
  split; [|split; [|split; reflexivity]].
  - rewrite (proj1 (effective_object_type_rule (demo_rtr false []) "Graven"
                      (JObj [("typering", JStr "Indieningsvereisten");
                             ("toestemming", JObj [("waarde", JStr "Conclusie")]);
                             ("functioneleStructuurRef", JStr "ref/c1")])
                      (JStr "Indieningsvereisten") eq_refl) eq_refl).
    reflexivity.
  - apply (proj1 (proj2 (effective_object_type_rule (demo_rtr false []) "Graven"
                           (rule_object "Melding" "ref/m1") (JStr "Melding")
                           eq_refl))).
    + discriminate.
    + reflexivity.
Defined.

Lemma append_sttr_file_index_witness :
  let record :=
    rule_record "ref/v1" "2023-05-01" "https://h/api/toepasbareRegels/v1/sttr" in
  let self := demo_rtr false [] in
  sttr_url_per_activity
    (snd (append_sttr_file self "Graven" (JStr "null") record initial_state)) = [] /\
  sttr_url_per_activity
    (snd (append_sttr_file self "Graven" (JStr "Melding") (JObj []) initial_state))
    = [] /\
  assoc String.eqb "Graven_Aanvraag_vergunning"
    (sttr_url_per_activity
       (snd (append_sttr_file self "Graven" (JStr "Aanvraag vergunning") record
               initial_state)))
    = Some (JStr "https://h/api/toepasbareRegels/v1/sttr").
Proof.
  intros record self. split; [|split].
  - apply (proj1 (append_sttr_file_index self "Graven" (JStr "null") record
                    initial_state)).
    reflexivity.
  - apply (proj1 (proj2 (append_sttr_file_index self "Graven" (JStr "Melding")
                           (JObj []) initial_state))
             (KeyError (JStr "_embedded"))).
    reflexivity.
  - destruct (proj2 (proj2 (append_sttr_file_index self "Graven"
                              (JStr "Aanvraag vergunning") record initial_state))
                (JStr "https://h/api/toepasbareRegels/v1/sttr")
                "Aanvraag vergunning" eq_refl eq_refl)
      as (_ & _ & H).
    + discriminate.
    + exact H.
Defined.

Lemma extract_werkzaamheden_links_witness :
  extract_werkzaamheden (JObj [("urn", JStr "nl.imow-ws0636.activiteit.Varen")])
    = Raise (KeyError (JStr "_links")) /\
  extract_werkzaamheden bare_payload = Ok [JStr ""] /\
  extract_werkzaamheden
    (JObj [("_links", JObj [("werkzaamheden", JArr [])])]) = Ok [JStr ""].
Proof.
  split; [|split].
  - apply (proj1 (extract_werkzaamheden_links _)). reflexivity.
  - apply (proj2 (extract_werkzaamheden_links _) []); [reflexivity | now left].
  - apply (proj2 (extract_werkzaamheden_links _)
             [("werkzaamheden", JArr [])]); [reflexivity | now right].
Defined.

(** C10 as stated fails: a payload that has "_links", with null for its
    value, makes the extraction raise a [TypeError]; it yields no empty
    string. *)
Lemma links_null_refuted :
  py_getitem (JObj [("_links", JNull)]) "_links" = Ok JNull /\
  extract_werkzaamheden (JObj [("_links", JNull)]) = Raise TypeError.
Proof. split; reflexivity. Qed.



Lemma archive_activity_data_row_witness :
  let self := demo_rtr false informatie_pages in
  (exists w c0 c1 c2 c3 st1,
     extract_werkzaamheden informatie_payload = Ok [JStr w] /\
     fetch_and_process_changes self informatie_payload initial_state
       = (Ok [c0; c1; c2; c3], st1) /\
     mkState
       [("Lozen_Informatie", JStr "https://h/api/toepasbareRegels/i2/sttr")]
       [] 2 [] []
       [(2, [JStr "Lozen"; JStr "Lozen"; JStr "Water"; JStr "ref-lozen"; JStr "";
             JStr ""; JStr ""; JStr ""; JStr "2024-03-15"])]
       false
     = snd (write_data_to_cells 2
              [JStr "Lozen"; JStr "Lozen"; JStr "Water"; JStr "ref-lozen"; JStr w;
               c0; c1; c2; c3] st1) /\
     [(2, [JStr "Lozen"; JStr "Lozen"; JStr "Water"; JStr "ref-lozen"; JStr "";
           JStr ""; JStr ""; JStr ""; JStr "2024-03-15"])]
     = sheet initial_state ++
         [(2, [JStr "Lozen"; JStr "Lozen"; JStr "Water"; JStr "ref-lozen"; JStr w;
               c0; c1; c2; c3])]) /\
  (length ([JStr "Lozen"; JStr "Lozen"; JStr "Water"; JStr "ref-lozen"]
           ++ [JStr ""] ++ [JStr ""; JStr ""; JStr ""; JStr "2024-03-15"]) = 9 /\
   archive_activity_data self 2 (JStr "Lozen") "Lozen" (JStr "Water")
     (JStr "ref-lozen") informatie_payload initial_state
   = write_data_to_cells 2
       ([JStr "Lozen"; JStr "Lozen"; JStr "Water"; JStr "ref-lozen"]
        ++ [JStr ""] ++ [JStr ""; JStr ""; JStr ""; JStr "2024-03-15"])
       (mkState
          [("Lozen_Informatie", JStr "https://h/api/toepasbareRegels/i2/sttr")]
          [] 2 [] [] [] false)) /\
  (exists w,
     [JStr ""] = [JStr w] /\
     archive_activity_data self 2 (JStr "Varen") "Varen" (JStr "Water")
       (JStr "ref-varen") bare_payload initial_state
     = write_data_to_cells 2
         [JStr "Varen"; JStr "Varen"; JStr "Water"; JStr "ref-varen"; JStr w;
          JStr ""; JStr ""; JStr ""; JStr ""] initial_state).
Proof.
  intros self. split; [|split].
  - apply (proj1 (archive_activity_data_row self 2 (JStr "Lozen") "Lozen"
                    (JStr "Water") (JStr "ref-lozen") informatie_payload
                    initial_state)).
    vm_compute. reflexivity.
  - apply (proj1 (proj2 (archive_activity_data_row self 2 (JStr "Lozen") "Lozen"
                           (JStr "Water") (JStr "ref-lozen") informatie_payload
                           initial_state))).
    + reflexivity.
    + vm_compute. reflexivity.
  - apply (proj2 (proj2 (archive_activity_data_row self 2 (JStr "Varen") "Varen"
                           (JStr "Water") (JStr "ref-varen") bare_payload
                           initial_state))
             [JStr ""] "nl.imow-ws0636.activiteit.Varen").
    + reflexivity.
    + reflexivity.
    + now left.
Defined.

(** C2 as stated fails: the row of an activity without rule-management
    objects has nine fields, not eight. *)
Lemma row_of_eight_fields_refuted :
  sheet (snd (process_activity (demo_rtr false (varen_pages bare_payload)) varen 2
                initial_state))
    = [(2, [JStr "Varen"; JStr "Varen"; JStr "Water"; JStr "ref-varen"; JStr "";
            JStr ""; JStr ""; JStr ""; JStr ""])] /\
  length [JStr "Varen"; JStr "Varen"; JStr "Water"; JStr "ref-varen"; JStr "";
          JStr ""; JStr ""; JStr ""; JStr ""] <> 8.
Proof. split; [vm_compute; reflexivity | discriminate]. Qed.

Lemma extract_identifier_recovers_witness :
  let self := demo_rtr false [] in
  extract_identifier self (JObj [("_links", JNull)]) = "Unknown" /\
  final_segment_at "/" "regels/abc"
    (extract_identifier self
       (JObj [("_links",
               JObj [("self", JObj [("href", JStr (demo_rule_url "regels/abc"))])])])) /\
  append_sttr_file self "Graven" (JStr "Melding") (JObj []) initial_state =
    (Ok tt,
     snd (print ("Data missing key: '" +:+ str_of_key self (JStr "_embedded")
                 +:+ "'. Regelbeheerobject: " +:+ extract_identifier self (JObj []))
            initial_state)).
Proof.
  intros self. split; [|split].
  - apply (proj1 (extract_identifier_recovers self (JObj [("_links", JNull)]))
             AttributeError).
    reflexivity.
  - exact (proj1 (proj2 (extract_identifier_recovers self
                           (JObj [("_links",
                                   JObj [("self",
                                          JObj [("href",
                                                 JStr (demo_rule_url "regels/abc"))])])])))
             _ _ _ _ _ eq_refl eq_refl eq_refl eq_refl eq_refl).
  - apply (proj2 (proj2 (extract_identifier_recovers self (JObj [])))).
    reflexivity.
Defined.

(** C8 as stated fails: for a record without a self link the recovery
    finds no reference, and the function returns the empty string, not
    "Unknown"; for a reference with slashes it returns the last segment,
    not the reference. *)
Lemma unknown_fallback_refuted :
  let self := demo_rtr false [] in
  sttr_bestand_href (JObj []) = Raise (KeyError (JStr "_embedded")) /\
  extract_identifier self (JObj []) = "" /\
  extract_identifier self (JObj []) <> "Unknown" /\
  extract_identifier self
    (JObj [("_links",
            JObj [("self", JObj [("href", JStr (demo_rule_url "regels/abc"))])])])
    = "abc".
Proof.
  intros self. split; [reflexivity|]. split; [reflexivity|].
  split; [discriminate | reflexivity].
Qed.

Lemma location_flag_frame_witness :
  let self := demo_rtr false (varen_pages bare_payload) in
  let off := with_location self false in
  let on := with_location self true in
  (werkingsgebied_per_activity (snd (process_activity off varen 2 initial_state))
     = werkingsgebied_per_activity initial_state /\
   files (snd (process_activity off varen 2 initial_state)) = files initial_state) /\
  exists w fs,
    process_activity on varen 2 initial_state =
      (fst (process_activity off varen 2 initial_state),
       put_location w fs (snd (process_activity off varen 2 initial_state))).
Proof.
  intros self off on. split.
  - apply (proj1 (location_flag_frame self varen 2 initial_state)).
  - apply (proj2 (location_flag_frame self varen 2 initial_state)).
    unfold location_step_completes. cbv zeta. intros data _ H.
    vm_compute in H. inversion H. subst data.
    vm_compute. reflexivity.
Defined.

(** C9 as stated fails: a location without an identification makes the
    location step raise when the flag is on, and the row that the run with
    the flag off writes is never written. *)
Lemma flag_independence_refuted :
  let self := demo_rtr false (varen_pages unlocated_payload) in
  let off := with_location self false in
  let on := with_location self true in
  fst (process_activity on varen 2 initial_state)
    = Raise (KeyError (JStr "identificatie")) /\
  sheet (snd (process_activity on varen 2 initial_state)) = [] /\
  fst (process_activity off varen 2 initial_state) = Ok tt /\
  sheet (snd (process_activity off varen 2 initial_state))
    = [(2, [JStr "Varen"; JStr "Varen"; JStr "Water"; JStr "ref-varen"; JStr "";
            JStr ""; JStr ""; JStr ""; JStr ""])].
Proof. intros self off on. repeat split; vm_compute; reflexivity. Qed.

(** ** Where the code departs from its description *)

(** A failed fetch of an applicable rule: [get_regelbeheerobject] returns
    [None] and prints nothing. *)
Lemma get_regelbeheerobject_failed (self : RTR) (urn_name : string)
    (object_type ref : json) (st : state) :
  let url := compose_regel_beheer_object_url self ref in
  response_ok (session_get self (requests st) url) = false ->
  get_regelbeheerobject self urn_name object_type ref st
    = (Ok JNull, snd (get self url st)).
Proof.
  intros url H. unfold get_regelbeheerobject, bind, ret. fold url. simpl.
  now rewrite H.
Qed.

Lemma list_assign_ok {A} (i : nat) (v : A) (l : list A) :
  i < length l -> exists l', list_assign i v l = Ok l'.
Proof.
  revert i. induction l as [|x l IH]; intros [|i] H; simpl in *; try lia.
  - now exists (v :: l).
  - destruct (IH i) as (l' & ->); [lia|]. now exists (x :: l').
Qed.

(** Whatever the slot of a filed object held, a failed fetch puts [None]
    there. *)
Lemma process_object_failed (self : RTR) (urn_name category : string) (i : nat)
    (changes : list json) (object ref : json) (st : state) :
  let url := compose_regel_beheer_object_url self ref in
  classifies object category ->
  slot category = Some i ->
  i < length changes ->
  py_getitem object "functioneleStructuurRef" = Ok ref ->
  response_ok (session_get self (requests st) url) = false ->
  exists changes',
    process_object self urn_name changes object st
      = (Ok changes', snd (get self url st)) /\
    nth_error changes' i = Some JNull.
Proof.
  intros url Hclass Hslot Hlen Href Hfail.
  destruct (list_assign_ok i JNull changes Hlen) as (changes' & Ha).
  exists changes'. split; [|apply (list_assign_nth _ _ _ _ Ha)].
  unfold process_object, process_individual_object, bind, lift, ret.
  unfold classifies in Hclass. rewrite Hclass, Href.
  rewrite (get_regelbeheerobject_failed self urn_name (JStr category) ref st Hfail).
  unfold in_categories. simpl hashable. cbv iota.
  rewrite (list_index_member _ _ _ (slot_index _ _ Hslot)).
  rewrite (slot_index _ _ Hslot), Ha. reflexivity.
Qed.

(** Only a [KeyError] is caught: any other failure to reach the document
    href leaves [append_sttr_file] as an exception.  A record with an empty
    list of rules is such a failure. *)
Lemma append_sttr_file_raises (self : RTR) (urn_name : string)
    (object_type data : json) (e : exn) (st : state) :
  sttr_bestand_href data = Raise e ->
  (forall key, e <> KeyError key) ->
  append_sttr_file self urn_name object_type data st = (Raise e, st).
Proof.
  intros H Hkey. unfold append_sttr_file, try_except_KeyError, bind, lift.
  rewrite H. destruct e; try reflexivity. now destruct (Hkey key).
Qed.

Example empty_rules_raise :
  sttr_bestand_href (JObj [("_embedded", JObj [("toepasbareRegels", JArr [])])])
    = Raise IndexError /\
  get_last_change_date (JObj [("_embedded", JObj [("toepasbareRegels", JArr [])])])
    = Ok (JStr "").
Proof. split; reflexivity. Qed.

(** The failed fetch of an activity is printed and the activity skipped. *)
Lemma process_activity_failed (self : RTR) (activity : activity) (row : nat)
    (st : state) :
  let url := compose_activity_url self (act_uri activity) in
  let r := session_get self (requests st) url in
  response_ok r = false ->
  process_activity self activity row st =
    (Ok tt,
     snd (print ("Error fetching data for URI " +:+ act_uri activity +:+ ": "
                 +:+ str_of_Z (status_code r)) (snd (get self url st)))).
Proof.
  intros url r H. rewrite process_activity_steps. cbv zeta.
  fold url. fold r. now rewrite H.
Qed.

(** C1 on the code.  Two notifications, the first fetched, the second
    refused by the server: after the first the slot holds its date, after
    the second it holds [None].  The failed fetch did update the slot. *)
Theorem failed_fetch_overwrites_slot :
  let self := demo_rtr false melding_pages in
  let first := rule_object "Melding" "ref/m1" in
  let second := rule_object "Melding" "ref/m2" in
  fst (fetch_and_process_changes self (melding_payload [first]) initial_state)
    = Ok [JStr ""; JStr "2023-05-01"; JStr ""; JStr ""] /\
  response_ok (session_get self 1 (demo_rule_url "ref/m2")) = false /\
  fst (fetch_and_process_changes self (melding_payload [first; second])
         initial_state)
    = Ok [JStr ""; JNull; JStr ""; JStr ""].
Proof. intros self first second. repeat split; vm_compute; reflexivity. Qed.

(** C7 on the code.  The failed fetch of an activity is printed with its
    URI and status, the failed download of a document with its URL and
    status; the failed fetch of an applicable rule prints nothing. *)
Theorem failed_rule_fetch_is_silent :
  let self := demo_rtr false melding_pages in
  stdout (snd (get_activity_data self "Graven" initial_state))
    = ["Error fetching data for URI Graven: 404"] /\
  stdout (snd (archive_sttr_file self
                 ("Graven_Melding", JStr "https://h/api/toepasbareRegels/m1/sttr")
                 initial_state))
    = ["Failed to download data from https://h/api/toepasbareRegels/m1/sttr, status code: 404"] /\
  response_ok (session_get self 0 (demo_rule_url "ref/m2")) = false /\
  get_regelbeheerobject self "Graven" (JStr "Melding") (JStr "ref/m2") initial_state
    = (Ok JNull, mkState [] [] 1 [] [] [] false).
Proof. intros self. repeat split; vm_compute; reflexivity. Qed.

(** * Further properties of the code *)

Ltac unfold_methods :=
  unfold archive_activities, archive_sttr_files, archive_sttr_file,
    process_activity, archive_activity_data, fetch_and_process_changes,
    process_object, process_individual_object, get_regelbeheerobject,
    append_sttr_file, get_activity_data, update_werkingsgebied_per_activity,
    update_activity_mapping, write_werkingsgebieden_to_file, write_to_file.

(** ** The workbook *)

Lemma process_activities_keeps {T} (f : state -> T) (self : RTR)
    (activities : list activity) (row : nat) :
  (forall a r, keeps f (process_activity self a r)) ->
  keeps f (process_activities self activities row).
Proof.
  intros H. revert row. induction activities as [|a l IH]; intros row; simpl.
  - apply keeps_ret.
  - apply keeps_bind; [apply H | intros; apply IH].
Qed.

(** X3.  [archive_activities] closes the workbook exactly when it returns:
    after a run that raises, anywhere, the workbook is as it was. *)
Theorem workbook_closed_on_return (self : RTR) (st : state) :
  match archive_activities self st with
  | (Ok _, st') => workbook_closed st' = true
  | (Raise _, st') => workbook_closed st' = workbook_closed st
  end.
Proof.
  assert (Hrows : keeps workbook_closed (process_activities self (urns self) 2)).
  { apply process_activities_keeps. intros a r. unfold_methods. frame. }
  assert (Hdocs : keeps workbook_closed
                    (if args_sttr self then archive_sttr_files self else ret tt)).
  { unfold_methods. frame. }
  unfold archive_activities, bind.
  specialize (Hrows st).
  destruct (process_activities self (urns self) 2 st) as [[[]|e] st1];
    simpl in Hrows; [|assumption].
  specialize (Hdocs st1).
  destruct ((if args_sttr self then archive_sttr_files self else ret tt) st1)
    as [[[]|e] st2]; simpl in Hdocs; [reflexivity | congruence].
Qed.

(** ** Rows and their numbers *)

(** [archive_activity_data] writes its row or nothing. *)
Lemma archive_activity_data_sheet (self : RTR) (row : nat) (name : json)
    (uri : string) (activity_group rule_reference data : json) (st : state) :
  let st' :=
    snd (archive_activity_data self row name uri activity_group rule_reference
           data st) in
  sheet st' = sheet st \/
  exists cells,
    length cells = 5 /\
    sheet st' =
      sheet st ++ [(row, [name; JStr uri; activity_group; rule_reference] ++ cells)].
Proof.
  unfold archive_activity_data, bind, lift.
  destruct (extract_werkzaamheden data) as [ws|e] eqn:Ew; [|now left].
  destruct (extract_werkzaamheden_one _ _ Ew) as (w & ->).
  pose proof (fetch_and_process_changes_sheet self data st) as Hsheet.
  destruct (fetch_and_process_changes self data st) as [[changes|e] st1] eqn:Ec;
    simpl in Hsheet; [|now left].
  destruct (fetch_and_process_changes_length _ _ _ _ _ Ec)
    as (c0 & c1 & c2 & c3 & ->).
  right. exists [JStr w; c0; c1; c2; c3]. split; [reflexivity|].
  simpl. now rewrite Hsheet.
Qed.

Lemma process_activity_sheet (self : RTR) (a : activity) (row : nat) (st : state) :
  let st' := snd (process_activity self a row st) in
  sheet st' = sheet st \/
  exists cells,
    length cells = 5 /\
    sheet st' =
      sheet st ++
      [(row, [act_name a; JStr (act_uri a); act_group a; act_rule_reference a]
             ++ cells)].
Proof.
  rewrite process_activity_steps. cbv zeta.
  destruct (response_ok _); [|now left].
  destruct (response_json _) as [data|e]; [|now left].
  assert (Hloc : keeps sheet (update_werkingsgebied_per_activity self data))
    by (unfold_methods; frame).
  match goal with
  | |- context [update_werkingsgebied_per_activity self data ?s] =>
      specialize (Hloc s);
      destruct (update_werkingsgebied_per_activity self data s) as [[[]|e] st2]
  end; simpl in Hloc; [|now left].
  destruct (py_truthy data); [|now left].
  change (sheet st) with (sheet (snd (get self (compose_activity_url self (act_uri a)) st)))
    in *.
  rewrite <- Hloc.
  apply archive_activity_data_sheet.
Qed.

Lemma rows_of_skip (start : nat) (a : activity) (rest : list activity)
    (rows : list (nat * list json)) :
  rows_of (S start) rest rows -> rows_of start (a :: rest) rows.
Proof. intros H. now left. Qed.

(** X4.  A pass over the activities, numbering rows from [start], adds to
    the sheet at most one row per activity, in the order of the activities;
    the row of an activity carries the number of its place in the list,
    also after activities that wrote none, and starts with the activity's
    name, URI, group and rule reference.  This holds for what was written
    before an exception as well. *)
Theorem process_activities_rows (self : RTR) (activities : list activity)
    (start : nat) (st : state) :
  exists rows,
    sheet (snd (process_activities self activities start st)) = sheet st ++ rows /\
    rows_of start activities rows.
Proof.
  revert start st. induction activities as [|a rest IH]; intros start st.
  - exists []. simpl. now rewrite app_nil_r.
  - cbn [process_activities]. unfold bind.
    pose proof (process_activity_sheet self a start st) as Hone.
    destruct (process_activity self a start st) as [[[]|e] st1]; simpl in Hone.
    + destruct (IH (S start) st1) as (rows & Hrows & Hof).
      destruct Hone as [Hsame|(cells & Hlen & Hrow)].
      * exists rows. rewrite Hrows, Hsame. split; [reflexivity | now left].
      * exists ((start,
                 [act_name a; JStr (act_uri a); act_group a; act_rule_reference a]
                 ++ cells) :: rows).
        rewrite Hrows, Hrow, <- app_assoc. split; [reflexivity|].
        right. now exists cells, rows.
    + assert (Hnone : rows_of (S start) rest []).
      { clear. revert start. induction rest as [|b rest IH]; intros start;
          [reflexivity | left; apply IH]. }
      destruct Hone as [Hsame|(cells & Hlen & Hrow)].
      * exists []. simpl. rewrite app_nil_r. split; [assumption | now left].
      * eexists. split; [exact Hrow|]. right. now exists cells, [].
Qed.

(** ** Requests *)

Lemma append_sttr_file_requests (self : RTR) (urn_name : string)
    (object_type data : json) :
  keeps requests (append_sttr_file self urn_name object_type data).
Proof. unfold append_sttr_file. frame. Qed.

(** Processing an object that returns has asked the server once. *)
Lemma process_individual_object_requests (self : RTR) (urn_name : string)
    (object : json) (st st' : state) (r : json * json) :
  process_individual_object self urn_name object st = (Ok r, st') ->
  requests st' = S (requests st).
Proof.
  unfold process_individual_object, get_regelbeheerobject, bind, lift, ret.
  destruct (effective_object_type object) as [t|e]; [|discriminate].
  destruct (py_getitem object "functioneleStructuurRef") as [ref|e]; [|discriminate].
  simpl.
  destruct (response_ok _).
  - destruct (response_json _) as [data|e]; [|discriminate].
    match goal with
    | |- context [append_sttr_file self urn_name t data ?s] =>
        pose proof (append_sttr_file_requests self urn_name t data s) as Hreq;
        destruct (append_sttr_file self urn_name t data s) as [[[]|e] st1]
    end; [|discriminate].
    simpl in Hreq.
    destruct (get_last_change_date data); [|discriminate].
    intros H. inversion H; subst. exact Hreq.
  - intros H. now inversion H.
Qed.

Lemma process_objects_requests (self : RTR) (urn_name : string)
    (objects : list json) (changes changes' : list json) (st st' : state) :
  for_fold objects changes (process_object self urn_name) st = (Ok changes', st') ->
  requests st' = requests st + length objects.
Proof.
  revert changes st. induction objects as [|o objects IH]; intros changes st H;
    simpl in H.
  - unfold ret in H. inversion H; subst. simpl. lia.
  - unfold bind in H.
    destruct (process_object self urn_name changes o st) as [[c1|e] st1] eqn:E;
      [|discriminate].
    rewrite (IH _ _ H).
    destruct (process_object_ok _ _ _ _ _ _ _ E) as (t & d & Hp & _).
    rewrite (process_individual_object_requests _ _ _ _ _ _ Hp). simpl. lia.
Qed.

(** X5.  When [fetch_and_process_changes] returns, it has asked the server
    exactly once for every rule-management object of the payload, filed
    under a category or not, and not at all for a payload without the key
    "regelBeheerObjecten". *)
Theorem one_request_per_object (self : RTR) (data : json) (changes : list json)
    (st st' : state) :
  fetch_and_process_changes self data st = (Ok changes, st') ->
  (py_in "regelBeheerObjecten" data = Ok false /\ requests st' = requests st) \/
  (exists objs objects,
     py_getitem data "regelBeheerObjecten" = Ok objs /\
     py_iter objs = Ok objects /\
     requests st' = requests st + length objects).
Proof.
  unfold fetch_and_process_changes, bind, lift, ret.
  destruct (py_getitem data "urn") as [urn|e]; [|discriminate].
  destruct (py_split urn ".") as [parts|e]; [|discriminate].
  destruct (last_item parts) as [urn_name|e]; [|discriminate].
  destruct (py_in "regelBeheerObjecten" data) as [[|]|e]; [| |discriminate].
  - destruct (py_getitem data "regelBeheerObjecten") as [objs|e] eqn:Hobjs;
      [|discriminate].
    destruct (py_iter objs) as [objects|e] eqn:Hiter; [|discriminate].
    intros H. right. exists objs, objects.
    split; [reflexivity|]. split; [exact Hiter|].
    apply (process_objects_requests _ _ _ _ _ _ _ H).
  - intros H. inversion H; subst. now left.
Qed.

Lemma one_request_per_object_witness :
  requests (snd (fetch_and_process_changes (demo_rtr false informatie_pages)
                   informatie_payload initial_state)) = 2 /\
  requests (snd (fetch_and_process_changes (demo_rtr false [])
                   bare_payload initial_state)) = 0.
Proof.
  split.
  - destruct (one_request_per_object (demo_rtr false informatie_pages)
                informatie_payload
                [JStr ""; JStr ""; JStr ""; JStr "2024-03-15"]
                initial_state
                (snd (fetch_and_process_changes (demo_rtr false informatie_pages)
                        informatie_payload initial_state)))
      as [[Hin _]|(objs & objects & Hobjs & Hiter & Hreq)].
    + vm_compute. reflexivity.
    + vm_compute in Hin. discriminate.
    + vm_compute in Hobjs. inversion Hobjs; subst objs.
      vm_compute in Hiter. inversion Hiter; subst objects.
      exact Hreq.
  - destruct (one_request_per_object (demo_rtr false []) bare_payload
                [JStr ""; JStr ""; JStr ""; JStr ""] initial_state initial_state)
      as [[_ Hreq]|(objs & objects & Hobjs & _)].
    + vm_compute. reflexivity.
    + exact Hreq.
    + vm_compute in Hobjs. discriminate.
Defined.

(** ** Activities that give no row *)

(** X6.  An activity whose detail fetch is refused is skipped:
    [process_activity] returns, having asked the server once and printed
    one line with the URI and the status; it writes no row and no file and
    leaves the archive index and the location map as they are. *)
Theorem process_activity_skips_failed (self : RTR) (activity : activity)
    (row : nat) (st : state) :
  let r := session_get self (requests st)
             (compose_activity_url self (act_uri activity)) in
  response_ok r = false ->
  process_activity self activity row st =
    (Ok tt,
     mkState (sttr_url_per_activity st) (werkingsgebied_per_activity st)
       (S (requests st))
       (stdout st ++ ["Error fetching data for URI " +:+ act_uri activity
                      +:+ ": " +:+ str_of_Z (status_code r)])
       (files st) (sheet st) (workbook_closed st)).
Proof.
  intros r H.
  rewrite (process_activity_failed self activity row st H). reflexivity.
Qed.

Lemma process_activity_skips_failed_witness :
  process_activity demo_run dempen 3 initial_state =
    (Ok tt,
     mkState [] [] 1 ["Error fetching data for URI Dempen: 404"] [] [] false).
Proof.
  apply (process_activity_skips_failed demo_run dempen 3 initial_state).
  reflexivity.
Defined.

(** X7.  A payload that Python takes for false (an empty object, an
    empty list, null) is skipped without a word: with the location flag
    off, [process_activity] returns after its one request, with nothing
    printed and no row written. *)
Theorem process_activity_skips_empty (self : RTR) (activity : activity)
    (row : nat) (data : json) (st : state) :
  let url := compose_activity_url self (act_uri activity) in
  let r := session_get self (requests st) url in
  args_location self = false ->
  response_ok r = true ->
  response_json r = Ok data ->
  py_truthy data = false ->
  process_activity self activity row st = (Ok tt, snd (get self url st)).
Proof.
  intros url r Hflag Hok Hjson Hfalse.
  rewrite process_activity_steps. cbv zeta. fold url. fold r.
  rewrite Hok, Hjson. unfold update_werkingsgebied_per_activity.
  rewrite Hflag. unfold ret. now rewrite Hfalse.
Qed.

Lemma process_activity_skips_empty_witness :
  process_activity (demo_rtr false [(demo_activity_url "Varen", found (JObj []))])
    varen 2 initial_state
  = (Ok tt, mkState [] [] 1 [] [] [] false).
Proof.
  apply (process_activity_skips_empty
           (demo_rtr false [(demo_activity_url "Varen", found (JObj []))])
           varen 2 (JObj []) initial_state); reflexivity.
Defined.

(** ** Exceptions end the run *)

Lemma process_activities_app (self : RTR) (before after : list activity)
    (start : nat) (st : state) :
  process_activities self (before ++ after) start st =
  bind (process_activities self before start)
    (fun _ => process_activities self after (start + length before)) st.
Proof.
  revert start st. induction before as [|a before IH]; intros start st.
  - simpl. unfold bind, ret. now rewrite Nat.add_0_r.
  - simpl. unfold bind in *.
    destruct (process_activity self a start st) as [[[]|e] st1]; [|reflexivity].
    rewrite IH. now rewrite Nat.add_succ_r.
Qed.

(** X8.  An exception in one activity ends the run: when the activities
    before it were processed and [process_activity] raises on it,
    [archive_activities] raises the same exception and stops in the state
    the activity left; no later activity is fetched, no document is
    archived and the workbook is not closed. *)
Theorem archive_activities_aborts (self : RTR) (before after : list activity)
    (activity : activity) (e : exn) (st0 st st' : state) :
  urns self = before ++ activity :: after ->
  process_activities self before 2 st0 = (Ok tt, st) ->
  process_activity self activity (2 + length before) st = (Raise e, st') ->
  archive_activities self st0 = (Raise e, st').
Proof.
  intros Hurns Hbefore Hraise.
  unfold archive_activities. rewrite Hurns. unfold bind at 1.
  rewrite process_activities_app. unfold bind at 1. rewrite Hbefore.
  cbn [process_activities]. unfold bind at 1. now rewrite Hraise.
Qed.

Lemma archive_activities_aborts_witness :
  archive_activities broken_run initial_state =
    (Raise (KeyError (JStr "urn")),
     mkState [] [] 2 [] []
       [(2, [JStr "Varen"; JStr "Varen"; JStr "Water"; JStr "ref-varen"; JStr "";
             JStr ""; JStr ""; JStr ""; JStr ""])]
       false).
Proof.
  apply (archive_activities_aborts broken_run [varen] [lozen] dempen
           (KeyError (JStr "urn")) initial_state
           (mkState [] [] 1 [] []
              [(2, [JStr "Varen"; JStr "Varen"; JStr "Water"; JStr "ref-varen";
                    JStr ""; JStr ""; JStr ""; JStr ""; JStr ""])]
              false)).
  - reflexivity.
  - vm_compute. reflexivity.
  - vm_compute. reflexivity.
Defined.

(** X9.  A record whose list of rules is there and empty is no record
    the loop survives: [get_last_change_date] gives the empty string for
    it, but [append_sttr_file] runs first and takes the list's first
    element, and the [IndexError] is not the [KeyError] it catches.  The
    loop over the objects raises at this object, after its one request,
    and no later object is fetched. *)
Theorem empty_rules_abort (self : RTR) (urn_name : string)
    (object object_type ref data embedded : json) (later : list json)
    (changes : list json) (st : state) :
  let url := compose_regel_beheer_object_url self ref in
  let r := session_get self (requests st) url in
  effective_object_type object = Ok object_type ->
  py_getitem object "functioneleStructuurRef" = Ok ref ->
  response_ok r = true ->
  response_json r = Ok data ->
  py_getitem data "_embedded" = Ok embedded ->
  py_getitem embedded "toepasbareRegels" = Ok (JArr []) ->
  get_last_change_date data = Ok (JStr "") /\
  for_fold (object :: later) changes (process_object self urn_name) st
    = (Raise IndexError, snd (get self url st)).
Proof.
  intros url r Htype Href Hok Hjson Hemb Hrules. split.
  - unfold get_last_change_date, py_get.
    unfold py_getitem in Hemb. destruct data; try discriminate.
    destruct (field "_embedded" fields); [|discriminate].
    inversion Hemb; subst. simpl.
    unfold py_getitem in Hrules. destruct embedded; try discriminate.
    destruct (field "toepasbareRegels" fields0); [|discriminate].
    now inversion Hrules.
  - cbn [for_fold].
    unfold process_object, process_individual_object, get_regelbeheerobject,
      bind, lift.
    rewrite Htype, Href. simpl. fold url. fold r. rewrite Hok, Hjson.
    rewrite append_sttr_file_raises with (e := IndexError);
      [reflexivity | | discriminate].
    unfold sttr_bestand_href. rewrite Hemb. simpl. rewrite Hrules. reflexivity.
Qed.

Lemma empty_rules_abort_witness :
  let self := demo_rtr false [(demo_rule_url "ref/m1", found empty_rules_record)] in
  get_last_change_date empty_rules_record = Ok (JStr "") /\
  for_fold [rule_object "Melding" "ref/m1"; rule_object "Melding" "ref/m2"]
    [JStr ""; JStr ""; JStr ""; JStr ""] (process_object self "Graven")
    initial_state
  = (Raise IndexError, mkState [] [] 1 [] [] [] false).
Proof.
  intros self.
  apply (empty_rules_abort self "Graven" (rule_object "Melding" "ref/m1")
           (JStr "Melding") (JStr "ref/m1") empty_rules_record
           (JObj [("toepasbareRegels", JArr [])])
           [rule_object "Melding" "ref/m2"]
           [JStr ""; JStr ""; JStr ""; JStr ""] initial_state);
    reflexivity.
Defined.

(** ** Objects outside the four categories *)

Lemma list_index_none (v : json) (names : list string) (e : exn) :
  list_index v names = Raise e -> existsb (fun c => is_str c v) names = false.
Proof.
  revert e. induction names as [|c names IH]; intros e; simpl; [reflexivity|].
  destruct (is_str c v); [discriminate|]. simpl.
  destruct (list_index v names) as [i|e']; [discriminate|].
  intros _. now apply (IH e').
Qed.

(** X10.  An object filed under a string that is none of the four
    categories (and not "null") changes no slot of the change vector, but
    it is fetched all the same and its document enters the archive index
    under the URN's short name and its type. *)
Theorem unclassified_object_is_archived (self : RTR) (urn_name category : string)
    (object ref data href date : json) (changes : list json) (st : state) :
  let url := compose_regel_beheer_object_url self ref in
  let r := session_get self (requests st) url in
  effective_object_type object = Ok (JStr category) ->
  slot category = None ->
  category <> "null" ->
  py_getitem object "functioneleStructuurRef" = Ok ref ->
  response_ok r = true ->
  response_json r = Ok data ->
  sttr_bestand_href data = Ok href ->
  get_last_change_date data = Ok date ->
  process_object self urn_name changes object st =
    (Ok changes,
     snd (set_sttr_url (urn_name +:+ "_" +:+ spaces_as_underscores category) href
            (snd (get self url st)))).
Proof.
  intros url r Htype Hslot Hnull Href Hok Hjson Hhref Hdate.
  unfold process_object, process_individual_object, get_regelbeheerobject,
    append_sttr_file, try_except_KeyError, bind, lift, ret.
  rewrite Htype, Href. simpl. fold url. fold r.
  rewrite Hok, Hjson, Hhref.
  replace (String.eqb category "null") with false
    by (symmetry; now apply String.eqb_neq).
  simpl. rewrite replace_spaces, Hdate.
  unfold in_categories. simpl hashable. cbv iota.
  unfold slot in Hslot.
  destruct (list_index (JStr category) category_names) as [i|e] eqn:E;
    [discriminate|].
  rewrite (list_index_none _ _ _ E). reflexivity.
Qed.

Lemma unclassified_object_is_archived_witness :
  let self :=
    demo_rtr false
      [(demo_rule_url "ref/a1",
        found (rule_record "ref/a1" "2023-05-01"
                 "https://h/api/toepasbareRegels/a1/sttr"))] in
  process_object self "Graven" [JStr ""; JStr ""; JStr ""; JStr ""]
    (rule_object "Maatwerk voorschrift" "ref/a1") initial_state =
  (Ok [JStr ""; JStr ""; JStr ""; JStr ""],
   mkState [("Graven_Maatwerk_voorschrift",
             JStr "https://h/api/toepasbareRegels/a1/sttr")]
     [] 1 [] [] [] false).
Proof.
  intros self.
  apply (unclassified_object_is_archived self "Graven" "Maatwerk voorschrift"
           (rule_object "Maatwerk voorschrift" "ref/a1") (JStr "ref/a1")
           (rule_record "ref/a1" "2023-05-01"
              "https://h/api/toepasbareRegels/a1/sttr")
           (JStr "https://h/api/toepasbareRegels/a1/sttr") (JStr "2023-05-01")
           [JStr ""; JStr ""; JStr ""; JStr ""] initial_state);
    try reflexivity.
  discriminate.
Defined.

(** ** The location map *)

Lemma key_eqb_code (a b : json) :
  key_eqb a b = true <-> key_code a = key_code b /\ key_code a <> None.
Proof.
  destruct a as [|x|x|x|x|x], b as [|y|y|y|y|y]; simpl;
    (split; [intros H | intros [H1 H2]]);
    try discriminate; try congruence;
    try (apply Z.eqb_eq in H); try (apply String.eqb_eq in H);
    try (apply Bool.eqb_prop in H); subst;
    try (split; [reflexivity | discriminate]);
    try (inversion H1; subst);
    try (apply Z.eqb_refl); try (apply String.eqb_refl);
    try (destruct x, y; simpl in *; congruence).
Qed.

Lemma key_eqb_refl (k : json) : hashable k = true -> key_eqb k k = true.
Proof.
  intros H. apply key_eqb_code. split; [reflexivity|].
  destruct k; simpl in *; discriminate.
Qed.

Lemma key_eqb_left (stored k other : json) :
  key_eqb stored k = true -> key_eqb k other = false ->
  key_eqb stored other = false.
Proof.
  intros H1 H2. destruct (key_eqb stored other) eqn:E; [|reflexivity].
  apply key_eqb_code in H1. apply key_eqb_code in E.
  assert (H : key_eqb k other = true).
  { apply key_eqb_code. destruct H1 as [H1 H1'], E as [E E'].
    split; congruence. }
  congruence.
Qed.

Lemma assoc_set_key_same {V} (k : json) (v : V) (d : list (json * V)) :
  hashable k = true -> assoc key_eqb k (assoc_set key_eqb k v d) = Some v.
Proof.
  intros H. induction d as [|[k' v'] d IH]; simpl.
  - now rewrite key_eqb_refl.
  - destruct (key_eqb k' k) eqn:E; simpl; now rewrite E.
Qed.

Lemma assoc_set_key_other {V} (k other : json) (v : V) (d : list (json * V)) :
  key_eqb k other = false ->
  assoc key_eqb other (assoc_set key_eqb k v d) = assoc key_eqb other d.
Proof.
  intros H. induction d as [|[k' v'] d IH]; simpl.
  - now rewrite H.
  - destruct (key_eqb k' k) eqn:E; simpl.
    + now rewrite (key_eqb_left _ _ _ E H).
    + now rewrite IH.
Qed.

(** X11.  [update_activity_mapping] keeps one list per description:
    the names matched for a description seen before are appended to what
    is there, in order and without dropping repeats; a new description
    gets the matched names as its list; the lists of all other
    descriptions stay as they are.  A description that is a list or an
    object cannot be a key: the method raises [TypeError] and changes
    nothing. *)
Theorem update_activity_mapping_appends (description : json)
    (matched : list string) (st : state) :
  (hashable description = false ->
   update_activity_mapping description matched st = (Raise TypeError, st)) /\
  (hashable description = true ->
   exists mapping,
     update_activity_mapping description matched st
       = (Ok tt, snd (set_werkingsgebied mapping st)) /\
     assoc key_eqb description mapping =
       Some (match assoc key_eqb description (werkingsgebied_per_activity st) with
             | Some present => present ++ matched
             | None => matched
             end) /\
     (forall other,
        key_eqb description other = false ->
        assoc key_eqb other mapping
          = assoc key_eqb other (werkingsgebied_per_activity st))).
Proof.
  unfold update_activity_mapping. split; intros H; rewrite H; [reflexivity|].
  unfold bind, read.
  destruct (assoc key_eqb description (werkingsgebied_per_activity st))
    as [present|]; eexists; (split; [reflexivity|]);
    (split; [now apply assoc_set_key_same | intros; now apply assoc_set_key_other]).
Qed.

Lemma update_activity_mapping_appends_witness :
  let st := mkState [] [(JStr "Varen", ["Polder X"]); (JStr "Graven", ["Polder Y"])]
              0 [] [] [] false in
  update_activity_mapping (JArr []) ["Polder X"] st = (Raise TypeError, st) /\
  exists mapping,
    update_activity_mapping (JStr "Varen") ["Polder X"; "ambtsgebied HDSR"] st
      = (Ok tt, snd (set_werkingsgebied mapping st)) /\
    assoc key_eqb (JStr "Varen") mapping
      = Some (["Polder X"] ++ ["Polder X"; "ambtsgebied HDSR"]) /\
    (forall other,
       key_eqb (JStr "Varen") other = false ->
       assoc key_eqb other mapping
         = assoc key_eqb other (werkingsgebied_per_activity st)).
Proof.
  intros st. split.
  - apply (proj1 (update_activity_mapping_appends (JArr []) ["Polder X"] st)).
    reflexivity.
  - apply (proj2 (update_activity_mapping_appends (JStr "Varen")
                    ["Polder X"; "ambtsgebied HDSR"] st)).
    reflexivity.
Defined.

(** ** Lists of identifiers and of work items *)

Lemma get_description_returns (self : RTR) (identifier : string) :
  exists description, get_description self (JStr identifier) = Ok description.
Proof.
  unfold get_description, is_str.
  destruct (String.eqb identifier "nl.imow-ws0636.ambtsgebied.HDSR");
    [now eexists|].
  destruct (split_from_char_last "." identifier "" eq_refl) as (segment & Hlast & _).
  unfold py_split, split, rbind. rewrite Hlast. now eexists.
Qed.

(** A step that returns for every element gives one result per element,
    in order. *)
Lemma map_result_all {A B C} (f : A -> result B) (g : C -> A) (l : list C) :
  (forall x, exists y, f (g x) = Ok y) ->
  exists ys,
    map_result f (map g l) = Ok ys /\
    Forall2 (fun x y => f (g x) = Ok y) l ys.
Proof.
  intros H. induction l as [|x l (ys & Hys & Hall)]; simpl.
  - exists []. split; [reflexivity | constructor].
  - destruct (H x) as (y & Hy). exists (y :: ys).
    rewrite Hy. simpl. rewrite Hys. split; [reflexivity | now constructor].
Qed.

(** X12.  [match_descriptions] never raises on identifier strings: it
    returns one description per identifier, in the order of the
    identifiers, each the one [get_description] gives, with repeats kept. *)
Theorem match_descriptions_in_order (self : RTR) (identifiers : list string) :
  exists descriptions,
    match_descriptions self (map JStr identifiers) = Ok descriptions /\
    Forall2 (fun identifier description =>
               get_description self (JStr identifier) = Ok description)
      identifiers descriptions.
Proof.
  apply (map_result_all (get_description self) JStr identifiers).
  apply get_description_returns.
Qed.

Lemma map_result_hrefs (items : list json) (hrefs : list string) :
  Forall2 has_href items hrefs ->
  exists ids,
    map_result
      (fun werkzaamheid =>
         href <~ py_getitem werkzaamheid "href" ;;
         parts <~ py_split href "/" ;;
         last_item parts)
      items = Ok ids /\
    Forall2 (final_segment_at "/") hrefs ids.
Proof.
  induction 1 as [|item href items hrefs Hitem Hrest (ids & Hids & Hall)]; simpl.
  - exists []. split; [reflexivity | constructor].
  - unfold has_href in Hitem. rewrite Hitem. simpl.
    destruct (split_from_char_last "/" href "" eq_refl) as (segment & Hlast & Hseg).
    unfold split. rewrite Hlast. simpl. rewrite Hids.
    exists (segment :: ids). split; [reflexivity | now constructor].
Qed.

(** X13.  For a payload whose "_links" object lists work items, each an
    object with a string href, [extract_werkzaamheden] returns one field:
    what follows the last slash of each href, in order, joined by a comma
    and a space (the empty string for an empty list). *)
Theorem extract_werkzaamheden_joins (fields links : list (string * json))
    (items : list json) (hrefs : list string) :
  field "_links" fields = Some (JObj links) ->
  field "werkzaamheden" links = Some (JArr items) ->
  Forall2 has_href items hrefs ->
  exists ids,
    Forall2 (final_segment_at "/") hrefs ids /\
    extract_werkzaamheden (JObj fields) = Ok [JStr (String.concat ", " ids)].
Proof.
  intros Hlinks Hitems Hhrefs.
  destruct (map_result_hrefs items hrefs Hhrefs) as (ids & Hids & Hall).
  exists ids. split; [assumption|].
  assert (H1 : py_getitem (JObj fields) "_links" = Ok (JObj links))
    by (unfold py_getitem; now rewrite Hlinks).
  assert (H2 : py_in "werkzaamheden" (JObj links) = Ok true)
    by (unfold py_in; now rewrite Hitems).
  assert (H3 : py_getitem (JObj links) "werkzaamheden" = Ok (JArr items))
    by (unfold py_getitem; now rewrite Hitems).
  unfold extract_werkzaamheden.
  rewrite H1. cbn [rbind]. rewrite H2. cbn [rbind]. rewrite H3. cbn [rbind py_iter].
  rewrite Hids. cbn [rbind]. now destruct ids.
Qed.

Lemma extract_werkzaamheden_joins_witness :
  exists ids,
    Forall2 (final_segment_at "/")
      ["https://h/api/werkzaamheden/12"; "https://h/api/werkzaamheden/34"] ids /\
    extract_werkzaamheden
      (JObj [("_links",
              JObj [("werkzaamheden",
                     JArr [JObj [("href", JStr "https://h/api/werkzaamheden/12")];
                           JObj [("href", JStr "https://h/api/werkzaamheden/34");
                                 ("title", JStr "Graven")]])])])
    = Ok [JStr (String.concat ", " ids)].
Proof.
  apply (extract_werkzaamheden_joins _
           [("werkzaamheden",
             JArr [JObj [("href", JStr "https://h/api/werkzaamheden/12")];
                   JObj [("href", JStr "https://h/api/werkzaamheden/34");
                         ("title", JStr "Graven")]])]
           [JObj [("href", JStr "https://h/api/werkzaamheden/12")];
            JObj [("href", JStr "https://h/api/werkzaamheden/34");
                  ("title", JStr "Graven")]]).
  - reflexivity.
  - reflexivity.
  - repeat constructor.
Defined.

(** ** The archival pass *)













(** ** The location step *)

Lemma map_result_identificaties (locs : list json) (identifiers : list string) :
  Forall2 has_identificatie locs identifiers ->
  map_result (fun loc => py_getitem loc "identificatie") locs
    = Ok (map JStr identifiers).
Proof.
  induction 1 as [|loc identifier locs identifiers Hloc _ IH]; simpl.
  - reflexivity.
  - unfold has_identificatie in Hloc. rewrite Hloc. simpl. now rewrite IH.
Qed.

(** X16.  With the location flag on, for a payload whose description can
    be a key and whose locations each carry an identification string, and
    when log/werkingsgebieden_<date>.txt can be opened, the location step
    returns: the resolved names, one per location in order, are appended to
    the list of the payload's description (or start it), the lists of other
    descriptions stay as they are, and the whole map is written to that
    file, in place of what the file held; nothing else of the state
    changes. *)
Theorem location_step_records (self : RTR) (fields : list (string * json))
    (description : json) (locs : list json) (identifiers : list string)
    (st : state) :
  args_location self = true ->
  extract_activity_description (JObj fields) = Ok description ->
  hashable description = true ->
  py_get (JObj fields) "locaties" (JArr []) = Ok (JArr locs) ->
  Forall2 has_identificatie locs identifiers ->
  writable self
    (create_file_path self "log"
       ("werkingsgebieden_" +:+ args_date self +:+ ".txt")) = true ->
  exists descriptions mapping,
    Forall2 (fun identifier name => get_description self (JStr identifier) = Ok name)
      identifiers descriptions /\
    assoc key_eqb description mapping =
      Some (match assoc key_eqb description (werkingsgebied_per_activity st) with
            | Some present => present ++ descriptions
            | None => descriptions
            end) /\
    (forall other,
       key_eqb description other = false ->
       assoc key_eqb other mapping
         = assoc key_eqb other (werkingsgebied_per_activity st)) /\
    update_werkingsgebied_per_activity self (JObj fields) st =
      (Ok tt,
       mkState (sttr_url_per_activity st) mapping (requests st) (stdout st)
         (assoc_set String.eqb
            (create_file_path self "log"
               ("werkingsgebieden_" +:+ args_date self +:+ ".txt"))
            (String.concat "" (map (file_entry self) mapping))
            (files st))
         (sheet st) (workbook_closed st)).
Proof.
  intros Hflag Hdesc Hhash Hlocs Hids Hopen.
  destruct (map_result_all (get_description self) JStr identifiers
              (get_description_returns self))
    as (descriptions & Hmatch & Hall).
  exists descriptions.
  unfold update_werkingsgebied_per_activity, extract_identifications,
    match_descriptions, update_activity_mapping, write_werkingsgebieden_to_file,
    write_to_file.
  rewrite Hflag. unfold bind, lift, read.
  rewrite Hdesc, Hlocs. cbn [rbind py_iter].
  rewrite (map_result_identificaties _ _ Hids), Hmatch, Hhash.
  unfold store_file.
  destruct (assoc key_eqb description (werkingsgebied_per_activity st))
    as [present|]; cbn [fst snd werkingsgebied_per_activity]; rewrite Hopen;
    eexists;
    (split; [exact Hall|]);
    (split; [now apply assoc_set_key_same|]);
    (split; [intros; now apply assoc_set_key_other | reflexivity]).
Qed.

Lemma location_step_records_witness :
  let self := demo_rtr true [] in
  let st :=
    mkState [] [(JStr "Varen", ["ambtsgebied HDSR"])] 1 []
      [("/srv/rtr/log/werkingsgebieden_01-02-2024.txt", "stale")] [] false in
  exists descriptions mapping,
    Forall2 (fun identifier name => get_description self (JStr identifier) = Ok name)
      ["nl.imow-ws0636.gebied.007"] descriptions /\
    assoc key_eqb (JStr "Varen") mapping
      = Some (["ambtsgebied HDSR"] ++ descriptions) /\
    (forall other,
       key_eqb (JStr "Varen") other = false ->
       assoc key_eqb other mapping
         = assoc key_eqb other (werkingsgebied_per_activity st)) /\
    update_werkingsgebied_per_activity self bare_payload st =
      (Ok tt,
       mkState [] mapping 1 []
         [("/srv/rtr/log/werkingsgebieden_01-02-2024.txt",
           String.concat "" (map (file_entry self) mapping))]
         [] false).
Proof.
  intros self st.
  apply (location_step_records self _ (JStr "Varen")
           [JObj [("identificatie", JStr "nl.imow-ws0636.gebied.007")]]
           ["nl.imow-ws0636.gebied.007"] st).
  - reflexivity.
  - reflexivity.
  - reflexivity.
  - reflexivity.
  - repeat constructor.
  - reflexivity.
Defined.

Lemma update_werkingsgebied_sheet (self : RTR) (data : json) :
  keeps (fun st => (sheet st, sttr_url_per_activity st, requests st, stdout st))
    (update_werkingsgebied_per_activity self data).
Proof. unfold_methods. frame. Qed.

(** X17.  The location step runs before the row is assembled: when it
    raises for the payload of an activity, [process_activity] raises the
    same exception, and the activity gets no row; the one request for its
    detail is all that the archive index, the printed lines and the sheet
    show of it. *)
Theorem location_step_failure_blocks_row (self : RTR) (activity : activity)
    (row : nat) (data : json) (e : exn) (st : state) :
  let url := compose_activity_url self (act_uri activity) in
  let r := session_get self (requests st) url in
  response_ok r = true ->
  response_json r = Ok data ->
  fst (update_werkingsgebied_per_activity self data (snd (get self url st)))
    = Raise e ->
  let st' := snd (process_activity self activity row st) in
  fst (process_activity self activity row st) = Raise e /\
  sheet st' = sheet st /\
  sttr_url_per_activity st' = sttr_url_per_activity st /\
  stdout st' = stdout st /\
  requests st' = S (requests st).
Proof.
  intros url r Hok Hjson Hraise.
  rewrite process_activity_steps. cbv zeta. fold url. fold r.
  rewrite Hok, Hjson.
  pose proof (update_werkingsgebied_sheet self data (snd (get self url st))) as Hkeep.
  destruct (update_werkingsgebied_per_activity self data (snd (get self url st)))
    as [[[]|e'] st2]; simpl in Hraise; [discriminate|].
  inversion Hraise; subst e'. simpl in Hkeep. inversion Hkeep as [[H1 H2 H3 H4]].
  simpl. repeat split; assumption.
Qed.

Lemma location_step_failure_blocks_row_witness :
  let self := demo_rtr true (varen_pages unlocated_payload) in
  let st' := snd (process_activity self varen 2 initial_state) in
  fst (process_activity self varen 2 initial_state)
    = Raise (KeyError (JStr "identificatie")) /\
  sheet st' = sheet initial_state /\
  sttr_url_per_activity st' = sttr_url_per_activity initial_state /\
  stdout st' = stdout initial_state /\
  requests st' = S (requests initial_state).
Proof.
  intros self.
  apply (location_step_failure_blocks_row self varen 2 unlocated_payload
           (KeyError (JStr "identificatie")) initial_state); reflexivity.
Defined.

(** ** The date of a record *)

(** X18.  [get_last_change_date] reads the first rule only.  For a
    record object it gives the empty string when "_embedded" is missing,
    when the embedded object has no "toepasbareRegels" and when that list
    is empty; when the list starts with an object it gives that object's
    "laatsteWijzigingDatum", or the empty string if it has none, whatever
    rules follow. *)
Theorem get_last_change_date_first_rule (fields : list (string * json)) :
  (field "_embedded" fields = None ->
   get_last_change_date (JObj fields) = Ok (JStr "")) /\
  (forall embedded,
     field "_embedded" fields = Some (JObj embedded) ->
     (field "toepasbareRegels" embedded = None \/
      field "toepasbareRegels" embedded = Some (JArr []) ->
      get_last_change_date (JObj fields) = Ok (JStr "")) /\
     (forall rule later,
        field "toepasbareRegels" embedded = Some (JArr (JObj rule :: later)) ->
        get_last_change_date (JObj fields) =
          Ok (match field "laatsteWijzigingDatum" rule with
              | Some date => date
              | None => JStr ""
              end))).
Proof.
  unfold get_last_change_date, py_get. split.
  - intros ->. reflexivity.
  - intros embedded ->. cbn [rbind]. split.
    + intros [->| ->]; reflexivity.
    + intros rule later ->. cbn [rbind py_truthy py_getitem0].
      now destruct (field "laatsteWijzigingDatum" rule).
Qed.

Lemma get_last_change_date_first_rule_witness :
  get_last_change_date (JObj [("_links", JObj [])]) = Ok (JStr "") /\
  get_last_change_date empty_rules_record = Ok (JStr "") /\
  get_last_change_date
    (JObj [("_embedded",
            JObj [("toepasbareRegels",
                   JArr [JObj [("laatsteWijzigingDatum", JStr "2023-05-01")];
                         JObj [("laatsteWijzigingDatum", JStr "2024-03-15")]])])])
    = Ok (JStr "2023-05-01").
Proof.
  split; [|split].
  - apply (proj1 (get_last_change_date_first_rule [("_links", JObj [])])).
    reflexivity.
  - apply (proj1 (proj2 (get_last_change_date_first_rule
                           [("_embedded", JObj [("toepasbareRegels", JArr [])])])
                    [("toepasbareRegels", JArr [])] eq_refl)).
    now right.
  - apply (proj2 (proj2 (get_last_change_date_first_rule
                           [("_embedded",
                             JObj [("toepasbareRegels",
                                    JArr [JObj [("laatsteWijzigingDatum",
                                                 JStr "2023-05-01")];
                                          JObj [("laatsteWijzigingDatum",
                                                 JStr "2024-03-15")]])])])
                    [("toepasbareRegels",
                      JArr [JObj [("laatsteWijzigingDatum", JStr "2023-05-01")];
                            JObj [("laatsteWijzigingDatum", JStr "2024-03-15")]])]
                    eq_refl)
             [("laatsteWijzigingDatum", JStr "2023-05-01")]
             [JObj [("laatsteWijzigingDatum", JStr "2024-03-15")]]).
    reflexivity.
Defined.

(** ** Slots without an object *)

(** X19.  A category under which no object of the payload is filed keeps
    the empty string in its slot: when [fetch_and_process_changes] returns,
    the slot of such a category holds the empty string it started with. *)
Theorem slot_without_object_stays_empty (self : RTR) (data : json)
    (category : string) (i : nat) (changes : list json) (st st' : state) :
  slot category = Some i ->
  (forall objs objects o,
     py_getitem data "regelBeheerObjecten" = Ok objs ->
     py_iter objs = Ok objects ->
     In o objects -> ~ classifies o category) ->
  fetch_and_process_changes self data st = (Ok changes, st') ->
  nth_error changes i = Some (JStr "").
Proof.
  intros Hslot Hnone.
  assert (Hstart : nth_error [JStr ""; JStr ""; JStr ""; JStr ""] i = Some (JStr "")).
  { destruct (list_index_name _ _ _ (slot_index _ _ Hslot)) as (c & _ & Hc).
    unfold category_names in Hc.
    destruct i as [|[|[|[|i]]]]; try reflexivity.
    simpl in Hc. destruct i; discriminate. }
  unfold fetch_and_process_changes, bind, lift, ret.
  destruct (py_getitem data "urn") as [urn|e]; [|discriminate].
  destruct (py_split urn ".") as [parts|e]; [|discriminate].
  destruct (last_item parts) as [urn_name|e]; [|discriminate].
  destruct (py_in "regelBeheerObjecten" data) as [[|]|e]; [| |discriminate].
  - destruct (py_getitem data "regelBeheerObjecten") as [objs|e] eqn:Hobjs;
      [|discriminate].
    destruct (py_iter objs) as [objects|e] eqn:Hiter; [|discriminate].
    intros H.
    rewrite (process_objects_other _ _ _ _ _ _ _ _ _ Hslot
               (fun o Ho => Hnone objs objects o eq_refl Hiter Ho) H).
    exact Hstart.
  - intros H. inversion H; subst. exact Hstart.
Qed.

Lemma slot_without_object_stays_empty_witness :
  nth_error
    [JStr ""; JStr ""; JStr ""; JStr "2024-03-15"] 1 = Some (JStr "").
Proof.
  apply (slot_without_object_stays_empty (demo_rtr false informatie_pages)
           informatie_payload "Melding" 1
           [JStr ""; JStr ""; JStr ""; JStr "2024-03-15"] initial_state
           (snd (fetch_and_process_changes (demo_rtr false informatie_pages)
                   informatie_payload initial_state))).
  - reflexivity.
  - intros objs objects o Hobjs Hiter Hin.
    vm_compute in Hobjs. inversion Hobjs; subst objs.
    vm_compute in Hiter. inversion Hiter; subst objects.
    destruct Hin as [<-|[<-|[]]]; unfold classifies; vm_compute; discriminate.
  - vm_compute. reflexivity.
Defined.

(** ** Files that cannot be opened *)

(** X20.  The archival pass stops at the first file it cannot open: when
    the first entry of the index is served with status 200 and its file
    cannot be opened (as for a key holding "/", which names a directory
    that is not there), the pass raises [OSError] after that one request;
    the later entries are not asked for, nothing is printed and no file is
    written. *)
Theorem unopenable_file_aborts_pass (self : RTR) (key url identifier : string)
    (rest : list (string * json)) (st : state) :
  sttr_url_per_activity st = (key, JStr url) :: rest ->
  sttr_identifier (JStr url) = Ok identifier ->
  status_code (session_get self (requests st) url) = 200%Z ->
  writable self
    (create_file_path self "log/STTR_RegelBeheerObjecten"
       ("STTR_" +:+ identifier +:+ "_" +:+ key +:+ ".xml")) = false ->
  archive_sttr_files self st =
    (Raise OSError,
     mkState (sttr_url_per_activity st) (werkingsgebied_per_activity st)
       (S (requests st)) (stdout st) (files st) (sheet st) (workbook_closed st)).
Proof.
  intros Hidx Hid Hstatus Hclosed.
  unfold archive_sttr_files, bind, read. rewrite Hidx. cbn [for_each].
  unfold bind, archive_sttr_file, bind, lift.
  unfold sttr_identifier in Hid.
  destruct (py_split (JStr url) "/toepasbareRegels/") as [parts|e]; [|discriminate].
  cbn [rbind] in Hid. destruct (item_at 1 parts) as [second|e]; [|discriminate].
  cbn [rbind] in Hid. rewrite Hid.
  cbn [py_str get]. rewrite Hstatus. cbn [Z.eqb Pos.eqb].
  unfold write_to_file, store_file. rewrite Hclosed. rewrite <- Hidx. reflexivity.
Qed.

Lemma unopenable_file_aborts_pass_witness :
  let self :=
    demo_rtr false
      [("https://h/api/toepasbareRegels/i1/sttr", mkResponse 200 None "<sttr/>");
       ("https://h/api/toepasbareRegels/i2/sttr", mkResponse 200 None "<sttr/>")] in
  archive_sttr_files self
    (mkState [("Graven_Aanvraag/melding", JStr "https://h/api/toepasbareRegels/i1/sttr");
              ("Lozen_Melding", JStr "https://h/api/toepasbareRegels/i2/sttr")]
       [] 3 [] [] [] false) =
  (Raise OSError,
   mkState [("Graven_Aanvraag/melding", JStr "https://h/api/toepasbareRegels/i1/sttr");
            ("Lozen_Melding", JStr "https://h/api/toepasbareRegels/i2/sttr")]
     [] 4 [] [] [] false).
Proof.
  intros self.
  apply (unopenable_file_aborts_pass self "Graven_Aanvraag/melding"
           "https://h/api/toepasbareRegels/i1/sttr" "i1"
           [("Lozen_Melding", JStr "https://h/api/toepasbareRegels/i2/sttr")]
           (mkState [("Graven_Aanvraag/melding",
                      JStr "https://h/api/toepasbareRegels/i1/sttr");
                     ("Lozen_Melding",
                      JStr "https://h/api/toepasbareRegels/i2/sttr")]
              [] 3 [] [] [] false)).
  - reflexivity.
  - reflexivity.
  - reflexivity.
  - reflexivity.
Defined.

(** X21.  With the location flag on, when the payload's names resolve but
    log/werkingsgebieden_<date>.txt cannot be opened (as for a date holding
    "/"), the location step raises [OSError]: the map in memory has the new
    names by then, and no file is written. *)
Theorem location_step_unopenable (self : RTR) (fields : list (string * json))
    (description : json) (locs : list json) (identifiers : list string)
    (st : state) :
  args_location self = true ->
  extract_activity_description (JObj fields) = Ok description ->
  hashable description = true ->
  py_get (JObj fields) "locaties" (JArr []) = Ok (JArr locs) ->
  Forall2 has_identificatie locs identifiers ->
  writable self
    (create_file_path self "log"
       ("werkingsgebieden_" +:+ args_date self +:+ ".txt")) = false ->
  exists descriptions mapping,
    Forall2 (fun identifier name => get_description self (JStr identifier) = Ok name)
      identifiers descriptions /\
    assoc key_eqb description mapping =
      Some (match assoc key_eqb description (werkingsgebied_per_activity st) with
            | Some present => present ++ descriptions
            | None => descriptions
            end) /\
    update_werkingsgebied_per_activity self (JObj fields) st =
      (Raise OSError,
       mkState (sttr_url_per_activity st) mapping (requests st) (stdout st)
         (files st) (sheet st) (workbook_closed st)).
Proof.
  intros Hflag Hdesc Hhash Hlocs Hids Hclosed.
  destruct (map_result_all (get_description self) JStr identifiers
              (get_description_returns self))
    as (descriptions & Hmatch & Hall).
  exists descriptions.
  unfold update_werkingsgebied_per_activity, extract_identifications,
    match_descriptions, update_activity_mapping, write_werkingsgebieden_to_file,
    write_to_file.
  rewrite Hflag. unfold bind, lift, read.
  rewrite Hdesc, Hlocs. cbn [rbind py_iter].
  rewrite (map_result_identificaties _ _ Hids), Hmatch, Hhash.
  unfold store_file.
  destruct (assoc key_eqb description (werkingsgebied_per_activity st))
    as [present|]; cbn [fst snd werkingsgebied_per_activity]; rewrite Hclosed;
    eexists;
    (split; [exact Hall|]);
    (split; [now apply assoc_set_key_same | reflexivity]).
Qed.

Lemma location_step_unopenable_witness :
  let self :=
    mkRTR "/srv/rtr" "prod" "01/02/2024" true true [] [("7", "Polder X")]
      (serves []) plain_urlparse_query plain_parse_qs (fun _ => "[...]")
      demo_writable in
  let st := mkState [] [(JStr "Varen", ["ambtsgebied HDSR"])] 1 [] [] [] false in
  exists descriptions mapping,
    Forall2 (fun identifier name => get_description self (JStr identifier) = Ok name)
      ["nl.imow-ws0636.gebied.007"] descriptions /\
    assoc key_eqb (JStr "Varen") mapping
      = Some (["ambtsgebied HDSR"] ++ descriptions) /\
    update_werkingsgebied_per_activity self bare_payload st =
      (Raise OSError, mkState [] mapping 1 [] [] [] false).
Proof.
  intros self st.
  apply (location_step_unopenable self _ (JStr "Varen")
           [JObj [("identificatie", JStr "nl.imow-ws0636.gebied.007")]]
           ["nl.imow-ws0636.gebied.007"] st).
  - reflexivity.
  - reflexivity.
  - reflexivity.
  - reflexivity.
  - repeat constructor.
  - reflexivity.
Defined.
